(** * Debounce engines of esp32-debouncing

    Shallow embedding of the two debouncers of the repository:

    - [FSM]: the four-state machine of
      [src/esp-idf/debounce_fsm/src/main.c] ([debounce_t],
      [debounce_init], [debounce_update]);
    - [Arduino]: the class [SoftwareDebounce] of
      [src/arduino/debounce/src/main.cpp] ([update],
      [get_rising_edge], [get_falling_edge], [get_changed]).

    Both read a GPIO level and a free-running tick counter.  The two
    hardware reads are inputs of the embedded functions: [level] is what
    [gpio_get_level] / [digitalRead] returned for the call and [now] what
    [xTaskGetTickCount] / [millis] returned.  Tick counters are 32-bit
    unsigned ([uint32_t], [TickType_t], [unsigned long] on the ESP32);
    they are integers of [Z] with the wrap-around written out. *)

From Stdlib Require Import ZArith List Bool Lia.
Import ListNotations.
Local Open Scope Z_scope.

(** ** 32-bit unsigned tick arithmetic *)

Definition TICK_MODULUS : Z := 2 ^ 32.

Definition wrap32 (z : Z) : Z := z mod TICK_MODULUS.

(** [a - b] on two [uint32_t] operands. *)
Definition ticks_sub (a b : Z) : Z := wrap32 (a - b).

Definition in_u32 (z : Z) : Prop := 0 <= z < TICK_MODULUS.

#[global] Arguments TICK_MODULUS : simpl never.
#[global] Arguments wrap32 : simpl never.
#[global] Arguments ticks_sub : simpl never.

(** One polled observation: the electrical level of the pin and the
    value of the tick counter read by the same call. *)
Definition sample : Type := (bool * Z)%type.

(** ** The four-state machine (ESP-IDF) *)

Module FSM.

Inductive debounce_state_t : Type :=
| DEBOUNCE_LOW
| DEBOUNCE_RISING
| DEBOUNCE_HIGH
| DEBOUNCE_FALLING.

Inductive debounce_edge_t : Type :=
| DEBOUNCE_NO_EDGE
| DEBOUNCE_RISING_EDGE
| DEBOUNCE_FALLING_EDGE.

Record debounce_t : Type := mk_debounce {
  pin : Z;
  inverted : bool;
  last_update_ticks : Z;
  press_delay_ticks : Z;
  release_delay_ticks : Z;
  state : debounce_state_t
}.

Definition edge_eqb (a b : debounce_edge_t) : bool :=
  match a, b with
  | DEBOUNCE_NO_EDGE, DEBOUNCE_NO_EDGE
  | DEBOUNCE_RISING_EDGE, DEBOUNCE_RISING_EDGE
  | DEBOUNCE_FALLING_EDGE, DEBOUNCE_FALLING_EDGE => true
  | _, _ => false
  end.

(** [raw_read]: the level of the pin, negated for active-low wiring. *)
Definition raw_read (level inverted : bool) : bool :=
  if inverted then negb level else level.

Definition set_state (self : debounce_t) (st : debounce_state_t) : debounce_t :=
  mk_debounce (pin self) (inverted self) (last_update_ticks self)
    (press_delay_ticks self) (release_delay_ticks self) st.

Definition set_state_and_ticks (self : debounce_t) (st : debounce_state_t)
    (now : Z) : debounce_t :=
  mk_debounce (pin self) (inverted self) now
    (press_delay_ticks self) (release_delay_ticks self) st.

Section Init.
(** [pdMS_TO_TICKS] is FreeRTOS' conversion macro; it depends on the
    configured tick rate and is not part of the repository. *)
Variable pdMS_TO_TICKS : Z -> Z.

(** [level] and [now] are the pin level and the tick count read during
    initialisation. *)
Definition debounce_init (pin : Z) (inverted : bool)
    (press_delay_ms release_delay_ms : Z) (level : bool) (now : Z)
    : debounce_t :=
  mk_debounce pin inverted now
    (pdMS_TO_TICKS press_delay_ms) (pdMS_TO_TICKS release_delay_ms)
    (if raw_read level inverted then DEBOUNCE_HIGH else DEBOUNCE_LOW).
End Init.

(** [debounce_update]: the returned pair is the function's result and the
    contents of [*self] when it returns. *)
Definition debounce_update (self : debounce_t) (level : bool) (now : Z)
    : debounce_edge_t * debounce_t :=
  let raw := raw_read level (inverted self) in
  match state self with
  | DEBOUNCE_LOW =>
      if raw
      then (DEBOUNCE_NO_EDGE, set_state_and_ticks self DEBOUNCE_RISING now)
      else (DEBOUNCE_NO_EDGE, self)
  | DEBOUNCE_RISING =>
      if raw
      then
        if press_delay_ticks self <=? ticks_sub now (last_update_ticks self)
        then (DEBOUNCE_RISING_EDGE, set_state self DEBOUNCE_HIGH)
        else (DEBOUNCE_NO_EDGE, self)
      else (DEBOUNCE_NO_EDGE, set_state self DEBOUNCE_LOW)
  | DEBOUNCE_HIGH =>
      if negb raw
      then (DEBOUNCE_NO_EDGE, set_state_and_ticks self DEBOUNCE_FALLING now)
      else (DEBOUNCE_NO_EDGE, self)
  | DEBOUNCE_FALLING =>
      if negb raw
      then
        if release_delay_ticks self <=? ticks_sub now (last_update_ticks self)
        then (DEBOUNCE_FALLING_EDGE, set_state self DEBOUNCE_LOW)
        else (DEBOUNCE_NO_EDGE, self)
      else (DEBOUNCE_NO_EDGE, set_state self DEBOUNCE_HIGH)
  end.

(** The polling task calls [debounce_update] once per iteration; [run]
    feeds a list of observations and collects the returned edges. *)
Fixpoint run (self : debounce_t) (obs : list sample)
    : list debounce_edge_t * debounce_t :=
  match obs with
  | [] => ([], self)
  | (level, now) :: rest =>
      let (e, self') := debounce_update self level now in
      let (es, self'') := run self' rest in
      (e :: es, self'')
  end.

Definition edges (self : debounce_t) (obs : list sample) : list debounce_edge_t :=
  fst (run self obs).

Definition final (self : debounce_t) (obs : list sample) : debounce_t :=
  snd (run self obs).

(** The transition table of the specification, read row by row: [r] is
    the polarity-corrected sample, [delta] the elapsed time since the
    timer was reset. *)
Definition table_step (st : debounce_state_t) (r : bool) (delta press release : Z)
    : debounce_state_t * bool * debounce_edge_t :=
  match st, r with
  | DEBOUNCE_LOW, true => (DEBOUNCE_RISING, true, DEBOUNCE_NO_EDGE)
  | DEBOUNCE_LOW, false => (DEBOUNCE_LOW, false, DEBOUNCE_NO_EDGE)
  | DEBOUNCE_RISING, true =>
      if press <=? delta
      then (DEBOUNCE_HIGH, false, DEBOUNCE_RISING_EDGE)
      else (DEBOUNCE_RISING, false, DEBOUNCE_NO_EDGE)
  | DEBOUNCE_RISING, false => (DEBOUNCE_LOW, false, DEBOUNCE_NO_EDGE)
  | DEBOUNCE_HIGH, true => (DEBOUNCE_HIGH, false, DEBOUNCE_NO_EDGE)
  | DEBOUNCE_HIGH, false => (DEBOUNCE_FALLING, true, DEBOUNCE_NO_EDGE)
  | DEBOUNCE_FALLING, true => (DEBOUNCE_HIGH, false, DEBOUNCE_NO_EDGE)
  | DEBOUNCE_FALLING, false =>
      if release <=? delta
      then (DEBOUNCE_LOW, false, DEBOUNCE_FALLING_EDGE)
      else (DEBOUNCE_FALLING, false, DEBOUNCE_NO_EDGE)
  end.

(** What an engine looks like after a table row has been applied: the
    row's target state, and the timer restarted at [now] exactly when the
    row says so. *)
Definition apply_row (self : debounce_t) (now : Z)
    (row : debounce_state_t * bool * debounce_edge_t)
    : debounce_edge_t * debounce_t :=
  let '(st, reset, e) := row in
  (e, if reset then set_state_and_ticks self st now else set_state self st).

End FSM.

(** ** The two-state debouncer (Arduino) *)

Module Arduino.

Record SoftwareDebounce : Type := mk_debounce {
  pin : Z;
  inverted : bool;
  cur_state : bool;
  prev_stable_state : bool;
  last_change_time : Z;
  delay_time : Z;
  state_changed : bool
}.

(** [read_raw_state]: the level of the pin, negated for active-low wiring. *)
Definition read_raw_state (self : SoftwareDebounce) (level : bool) : bool :=
  if inverted self then negb level else level.

(** The constructor; [level] is the pin level read by its last line. *)
Definition construct (switch_pin : Z) (inverted_logic : bool)
    (debounce_delay_time : Z) (level : bool) : SoftwareDebounce :=
  let raw := if inverted_logic then negb level else level in
  mk_debounce switch_pin inverted_logic raw raw 0 debounce_delay_time false.

Definition update (self : SoftwareDebounce) (level : bool) (cur_time : Z)
    : SoftwareDebounce :=
  let raw_state := read_raw_state self level in
  let self1 :=
    if negb (Bool.eqb raw_state (cur_state self))
    then mk_debounce (pin self) (inverted self) raw_state
           (prev_stable_state self) cur_time (delay_time self)
           (state_changed self)
    else self in
  if negb (state_changed self1)
     && (delay_time self1 <? ticks_sub cur_time (last_change_time self1))
  then
    if negb (Bool.eqb (cur_state self1) (prev_stable_state self1))
    then mk_debounce (pin self1) (inverted self1) (cur_state self1)
           (cur_state self1) (last_change_time self1) (delay_time self1) true
    else self1
  else self1.

(** [get_changed] reads the flag and clears it. *)
Definition get_changed (self : SoftwareDebounce) : bool * SoftwareDebounce :=
  if state_changed self
  then (true,
        mk_debounce (pin self) (inverted self) (cur_state self)
          (prev_stable_state self) (last_change_time self) (delay_time self)
          false)
  else (false, self).

Definition get_rising_edge (self : SoftwareDebounce) : bool * SoftwareDebounce :=
  let (changed, self') := get_changed self in
  if changed then (prev_stable_state self', self') else (false, self').

Definition get_falling_edge (self : SoftwareDebounce) : bool * SoftwareDebounce :=
  let (changed, self') := get_changed self in
  if changed then (negb (prev_stable_state self'), self') else (false, self').

(** The two public accessors, as a polling thread may call them in any
    order between two updates. *)
Inductive accessor : Type :=
| GetRisingEdge
| GetFallingEdge.

Definition call (a : accessor) (self : SoftwareDebounce) : bool * SoftwareDebounce :=
  match a with
  | GetRisingEdge => get_rising_edge self
  | GetFallingEdge => get_falling_edge self
  end.

Fixpoint calls (cs : list accessor) (self : SoftwareDebounce)
    : list bool * SoftwareDebounce :=
  match cs with
  | [] => ([], self)
  | a :: rest =>
      let (b, self') := call a self in
      let (bs, self'') := calls rest self' in
      (b :: bs, self'')
  end.

(** The accessor that classifies the transition held by the engine: the
    rising one when the confirmed state is active. *)
Definition classifies (a : accessor) (self : SoftwareDebounce) : bool :=
  match a with
  | GetRisingEdge => prev_stable_state self
  | GetFallingEdge => negb (prev_stable_state self)
  end.

Definition matching_accessor (self : SoftwareDebounce) : accessor :=
  if prev_stable_state self then GetRisingEdge else GetFallingEdge.

(** One polling round that loses nothing: [update], then the accessor of
    the confirmed level is asked, and its answer is reported as an edge. *)
Definition poll (self : SoftwareDebounce) (level : bool) (cur_time : Z)
    : FSM.debounce_edge_t * SoftwareDebounce :=
  let self1 := update self level cur_time in
  let a := matching_accessor self1 in
  let (b, self2) := call a self1 in
  (if b
   then match a with
        | GetRisingEdge => FSM.DEBOUNCE_RISING_EDGE
        | GetFallingEdge => FSM.DEBOUNCE_FALLING_EDGE
        end
   else FSM.DEBOUNCE_NO_EDGE,
   self2).

Fixpoint run (self : SoftwareDebounce) (obs : list sample)
    : list FSM.debounce_edge_t * SoftwareDebounce :=
  match obs with
  | [] => ([], self)
  | (level, now) :: rest =>
      let (e, self') := poll self level now in
      let (es, self'') := run self' rest in
      (e :: es, self'')
  end.

Definition edges (self : SoftwareDebounce) (obs : list sample)
    : list FSM.debounce_edge_t :=
  fst (run self obs).

(** Feeding observations to [update] alone, no accessor called. *)
Definition updates (self : SoftwareDebounce) (obs : list sample) : SoftwareDebounce :=
  fold_left (fun s o => update s (fst o) (snd o)) obs self.

End Arduino.

(** ** Observation sequences and the properties stated about them *)

(** The electrical level that [raw_read] / [read_raw_state] turn into the
    logical sample [r]. *)
Definition level_of (inverted r : bool) : bool :=
  if inverted then negb r else r.

(** The logical level [r] held over a stretch of polls: one observation
    per offset of [ds], taken [d] ticks after the instant [t0] on the
    wrapping counter. *)
Definition hold (inverted r : bool) (t0 : Z) (ds : list Z) : list sample :=
  map (fun d => (level_of inverted r, wrap32 (t0 + d))) ds.

(** [n] observations that flip at every poll, [period] ticks apart,
    starting with the logical level [r]. *)
Fixpoint flipping (inverted r : bool) (t0 period : Z) (n : nat) : list sample :=
  match n with
  | O => []
  | S n' =>
      (level_of inverted r, wrap32 t0)
        :: flipping inverted (negb r) (t0 + period) period n'
  end.

(** The raw input keeps bouncing: [prev] is the logical level of the
    previous observation, [since] the instant of the most recent change
    of the logical level among the observations (none so far when
    [None]).  Every observation made after a change comes less than the
    window of its level after that change. *)
Fixpoint never_settles (inverted : bool) (window : bool -> Z)
    (prev : bool) (since : option Z) (obs : list sample) : Prop :=
  match obs with
  | [] => True
  | (level, now) :: rest =>
      let r := if inverted then negb level else level in
      let since' := if Bool.eqb r prev then since else Some now in
      match since' with
      | Some t => ticks_sub now t < window r
      | None => True
      end
      /\ never_settles inverted window r since' rest
  end.

(** The edges of a result list, [DEBOUNCE_NO_EDGE] dropped. *)
Definition reported (es : list FSM.debounce_edge_t) : list FSM.debounce_edge_t :=
  filter (fun e => negb (FSM.edge_eqb e FSM.DEBOUNCE_NO_EDGE)) es.

(** No two neighbours of the list are the same edge. *)
Fixpoint alternating (es : list FSM.debounce_edge_t) : Prop :=
  match es with
  | a :: (b :: _) as rest => a <> b /\ alternating rest
  | _ => True
  end.

Definition count_edge (e : FSM.debounce_edge_t) (es : list FSM.debounce_edge_t) : nat :=
  length (filter (FSM.edge_eqb e) es).

(** The states and the edge that belong to a logical level [r]: the
    tentative state entered when [r] is first seen, the confirmed state
    reached once [r] has held, and the edge returned on reaching it. *)
Definition tentative_state (r : bool) : FSM.debounce_state_t :=
  if r then FSM.DEBOUNCE_RISING else FSM.DEBOUNCE_FALLING.

Definition confirmed_state (r : bool) : FSM.debounce_state_t :=
  if r then FSM.DEBOUNCE_HIGH else FSM.DEBOUNCE_LOW.

Definition edge_of (r : bool) : FSM.debounce_edge_t :=
  if r then FSM.DEBOUNCE_RISING_EDGE else FSM.DEBOUNCE_FALLING_EDGE.

(** The window of the four-state machine that applies to a logical
    level: the press window for active, the release window for inactive. *)
Definition fsm_window (self : FSM.debounce_t) (r : bool) : Z :=
  if r then FSM.press_delay_ticks self else FSM.release_delay_ticks self.

(** An engine that holds no tentative change. *)
Definition fsm_confirmed (self : FSM.debounce_t) : option bool :=
  match FSM.state self with
  | FSM.DEBOUNCE_LOW => Some false
  | FSM.DEBOUNCE_HIGH => Some true
  | _ => None
  end.

(** The only edge the machine can return next: a rising one below the
    confirmed-high states, a falling one from them. *)
Definition next_edge (self : FSM.debounce_t) : FSM.debounce_edge_t :=
  match FSM.state self with
  | FSM.DEBOUNCE_LOW | FSM.DEBOUNCE_RISING => FSM.DEBOUNCE_RISING_EDGE
  | FSM.DEBOUNCE_HIGH | FSM.DEBOUNCE_FALLING => FSM.DEBOUNCE_FALLING_EDGE
  end.

(** The machine agrees with the bookkeeping of [never_settles]: its
    state is on the side of the previous logical level, and in a
    tentative state its timer is the instant of the last change. *)
Definition fsm_tracks (self : FSM.debounce_t) (prev : bool) (since : option Z) : Prop :=
  match FSM.state self with
  | FSM.DEBOUNCE_LOW => prev = false
  | FSM.DEBOUNCE_HIGH => prev = true
  | FSM.DEBOUNCE_RISING => prev = true /\ since = Some (FSM.last_update_ticks self)
  | FSM.DEBOUNCE_FALLING => prev = false /\ since = Some (FSM.last_update_ticks self)
  end.

(** The next logical level [r] cannot confirm anything: the machine is
    in a confirmed state, or in a tentative state that [r] contradicts. *)
Definition rejects_next (self : FSM.debounce_t) (r : bool) : Prop :=
  match FSM.state self with
  | FSM.DEBOUNCE_LOW | FSM.DEBOUNCE_HIGH => True
  | FSM.DEBOUNCE_RISING => r = false
  | FSM.DEBOUNCE_FALLING => r = true
  end.

(** The exact-threshold property of an engine whose edges over a list of
    observations are [run_edges]: the active level first observed at
    [t0], observed again at the offsets [pre] and then at the offset
    [window] itself, gives one rising edge, at the last observation. *)
Definition confirms_at_threshold (run_edges : list sample -> list FSM.debounce_edge_t)
    (inverted : bool) (window t0 : Z) (pre : list Z) : Prop :=
  run_edges (hold inverted true t0 (0 :: pre ++ [window]))
  = FSM.DEBOUNCE_NO_EDGE
      :: repeat FSM.DEBOUNCE_NO_EDGE (length pre) ++ [FSM.DEBOUNCE_RISING_EDGE].

(** The number of accessor calls of [cs] that return true. *)
Definition deliveries (cs : list Arduino.accessor) (self : Arduino.SoftwareDebounce) : nat :=
  count_occ bool_dec (fst (Arduino.calls cs self)) true.

(** The state of the two-state debouncer, between two polling rounds,
    that stands for a state of the four-state machine: the confirmed
    level decides low/high, a raw level that differs from it is a
    tentative change, whose timer must then agree. *)
Definition corresponds (a : Arduino.SoftwareDebounce) (f : FSM.debounce_t) : Prop :=
  Arduino.state_changed a = false
  /\ Arduino.inverted a = FSM.inverted f
  /\ match FSM.state f with
     | FSM.DEBOUNCE_LOW =>
         Arduino.prev_stable_state a = false /\ Arduino.cur_state a = false
     | FSM.DEBOUNCE_RISING =>
         Arduino.prev_stable_state a = false /\ Arduino.cur_state a = true
         /\ Arduino.last_change_time a = FSM.last_update_ticks f
     | FSM.DEBOUNCE_HIGH =>
         Arduino.prev_stable_state a = true /\ Arduino.cur_state a = true
     | FSM.DEBOUNCE_FALLING =>
         Arduino.prev_stable_state a = true /\ Arduino.cur_state a = false
         /\ Arduino.last_change_time a = FSM.last_update_ticks f
     end.

(** ** The programs around the debouncers *)

(** What a program does to the outside: a write of the LED pin
    ([gpio_set_level] / [digitalWrite] on [LED_NUM]) and the line it
    logs after it, "LED ON" when [on] is true and "LED OFF" otherwise. *)
Inductive event : Type :=
| LedWrite (level : bool)
| LedMessage (on : bool).

Definition SWITCH_NUM : Z := 4.

(** The ESP-IDF program: the globals [led_state] and [debouncer],
    [app_main] and the body of the loop of [debounce_task]. *)
Module EspApp.

Record system : Type := mk_system {
  led_state : bool;
  debouncer : FSM.debounce_t
}.

(** [app_main]: [gpio_init] switches the LED off, then the debouncer is
    initialised from the level of the switch pin and the tick count. *)
Definition app_main (pdMS_TO_TICKS : Z -> Z) (level : bool) (now : Z)
    : list event * system :=
  ([LedWrite false],
   mk_system false (FSM.debounce_init pdMS_TO_TICKS SWITCH_NUM true 50 20 level now)).

(** One iteration of the loop of [debounce_task]. *)
Definition debounce_task_step (sys : system) (level : bool) (now : Z)
    : list event * system :=
  let (edge, d) := FSM.debounce_update (debouncer sys) level now in
  match edge with
  | FSM.DEBOUNCE_RISING_EDGE =>
      let led := negb (led_state sys) in
      ([LedWrite led; LedMessage led], mk_system led d)
  | _ => ([], mk_system (led_state sys) d)
  end.

(** As many iterations as there are observations. *)
Fixpoint debounce_task (sys : system) (obs : list sample) : list event * system :=
  match obs with
  | [] => ([], sys)
  | (level, now) :: rest =>
      let (ev, sys') := debounce_task_step sys level now in
      let (evs, sys'') := debounce_task sys' rest in
      (ev ++ evs, sys'')
  end.

End EspApp.

(** The Arduino sketch: the globals [debouncer] and [led_state] and the
    function [loop]. *)
Module ArduinoApp.

Record sketch : Type := mk_sketch {
  debouncer : Arduino.SoftwareDebounce;
  led_state : bool
}.

(** The two global objects as their initialisers leave them; [level] is
    the pin level the constructor reads. *)
Definition globals (level : bool) : sketch :=
  mk_sketch (Arduino.construct SWITCH_NUM true 50 level) false.

Definition loop (sk : sketch) (level : bool) (cur_time : Z) : list event * sketch :=
  let d1 := Arduino.update (debouncer sk) level cur_time in
  let (rising, d2) := Arduino.get_rising_edge d1 in
  if rising
  then
    let led := negb (led_state sk) in
    ([LedWrite led; LedMessage led], mk_sketch d2 led)
  else ([], mk_sketch d2 (led_state sk)).

Fixpoint loops (sk : sketch) (obs : list sample) : list event * sketch :=
  match obs with
  | [] => ([], sk)
  | (level, now) :: rest =>
      let (ev, sk') := loop sk level now in
      let (evs, sk'') := loops sk' rest in
      (ev ++ evs, sk'')
  end.

End ArduinoApp.

(** The events a program emits for a list of edges when it toggles the
    LED on every rising edge, starting from the LED level [led]. *)
Fixpoint toggles (led : bool) (es : list FSM.debounce_edge_t) : list event :=
  match es with
  | [] => []
  | FSM.DEBOUNCE_RISING_EDGE :: rest =>
      LedWrite (negb led) :: LedMessage (negb led) :: toggles (negb led) rest
  | _ :: rest => toggles led rest
  end.

(** The LED level after the rising edges of a list. *)
Fixpoint led_after (led : bool) (es : list FSM.debounce_edge_t) : bool :=
  match es with
  | [] => led
  | FSM.DEBOUNCE_RISING_EDGE :: rest => led_after (negb led) rest
  | _ :: rest => led_after led rest
  end.

(** ** The same wiring with the opposite polarity *)

Definition flip_levels (obs : list sample) : list sample :=
  map (fun o => (negb (fst o), snd o)) obs.

Definition fsm_flip_polarity (self : FSM.debounce_t) : FSM.debounce_t :=
  FSM.mk_debounce (FSM.pin self) (negb (FSM.inverted self))
    (FSM.last_update_ticks self) (FSM.press_delay_ticks self)
    (FSM.release_delay_ticks self) (FSM.state self).

Definition arduino_flip_polarity (self : Arduino.SoftwareDebounce)
    : Arduino.SoftwareDebounce :=
  Arduino.mk_debounce (Arduino.pin self) (negb (Arduino.inverted self))
    (Arduino.cur_state self) (Arduino.prev_stable_state self)
    (Arduino.last_change_time self) (Arduino.delay_time self)
    (Arduino.state_changed self).

(** No two neighbours of the list are both edges. *)
Fixpoint no_adjacent_edges (es : list FSM.debounce_edge_t) : Prop :=
  match es with
  | a :: (b :: _) as rest =>
      (a = FSM.DEBOUNCE_NO_EDGE \/ b = FSM.DEBOUNCE_NO_EDGE)
      /\ no_adjacent_edges rest
  | _ => True
  end.

(** ** Tick arithmetic *)

Lemma TICK_MODULUS_pos : 0 < TICK_MODULUS.
Proof. reflexivity. Qed.

Lemma wrap32_range (z : Z) : in_u32 (wrap32 z).
Proof. unfold in_u32, wrap32. apply Z.mod_pos_bound, TICK_MODULUS_pos. Qed.

Lemma wrap32_small (z : Z) : in_u32 z -> wrap32 z = z.
Proof. unfold in_u32, wrap32. intros H. now apply Z.mod_small. Qed.

Lemma ticks_sub_diag (t : Z) : ticks_sub t t = 0.
Proof. unfold ticks_sub. now rewrite Z.sub_diag. Qed.

(** The unsigned difference of two wrapped counters is the wrapped
    difference of the unbounded ones. *)
Lemma ticks_sub_wrap (a b : Z) : ticks_sub (wrap32 a) (wrap32 b) = wrap32 (a - b).
Proof.
  unfold ticks_sub, wrap32.
  now rewrite <- Zminus_mod.
Qed.

(** A counter read [d] ticks after [t0], however often it wrapped. *)
Lemma ticks_sub_offset (t0 d : Z) : in_u32 d -> ticks_sub (wrap32 (t0 + d)) (wrap32 t0) = d.
Proof.
  intros Hd. rewrite ticks_sub_wrap.
  replace (t0 + d - t0) with d by lia.
  now apply wrap32_small.
Qed.

(** ** The four-state machine: single steps *)

Module FSMFacts.
Import FSM.

Lemma set_state_same (self : debounce_t) : set_state self (state self) = self.
Proof. now destruct self. Qed.

Ltac step_cases self level :=
  unfold debounce_update, apply_row, table_step, raw_read;
  destruct self as [p inv last press release st]; simpl;
  destruct st, inv, level; simpl;
  repeat match goal with
         | |- context [?a <=? ?b] => destruct (Z.leb_spec a b)
         end; simpl.

(** C1. [debounce_update] is the transition table of the specification:
    with [r] the polarity-corrected sample and [delta] the unsigned
    elapsed time since the timer was last restarted, the returned edge,
    the new state and the timer are those of the table row for
    ([state], [r]).  A rising edge is returned exactly in the tentative
    rising state with [r] active and [delta] at least the press window, a
    falling edge exactly in the tentative falling state with [r] inactive
    and [delta] at least the release window; every other call returns
    [DEBOUNCE_NO_EDGE].  Field by field of the engine the call leaves:
    the state is the target of the row (rising-tentative from low and
    falling-tentative from high on a change, high or low from a
    tentative state whose window has elapsed, back to the confirmed
    state on a contradicting sample, unchanged otherwise), the timer is
    [now] exactly on the two entries into a tentative state and
    untouched otherwise, and pin, polarity and windows are untouched. *)
Theorem debounce_update_follows_table (self : debounce_t) (level : bool) (now : Z) :
  let r := raw_read level (inverted self) in
  let delta := ticks_sub now (last_update_ticks self) in
  let out := debounce_update self level now in
  out = apply_row self now
          (table_step (state self) r delta
             (press_delay_ticks self) (release_delay_ticks self))
  /\ (fst out = DEBOUNCE_RISING_EDGE <->
      state self = DEBOUNCE_RISING /\ r = true /\ press_delay_ticks self <= delta)
  /\ (fst out = DEBOUNCE_FALLING_EDGE <->
      state self = DEBOUNCE_FALLING /\ r = false /\ release_delay_ticks self <= delta)
  /\ (fst out = DEBOUNCE_NO_EDGE <->
      ~ (state self = DEBOUNCE_RISING /\ r = true /\ press_delay_ticks self <= delta)
      /\ ~ (state self = DEBOUNCE_FALLING /\ r = false /\ release_delay_ticks self <= delta))
  /\ press_delay_ticks (snd out) = press_delay_ticks self
  /\ release_delay_ticks (snd out) = release_delay_ticks self
  /\ inverted (snd out) = inverted self
  /\ pin (snd out) = pin self
  /\ state (snd out)
     = match state self, r with
       | DEBOUNCE_LOW, true => DEBOUNCE_RISING
       | DEBOUNCE_LOW, false => DEBOUNCE_LOW
       | DEBOUNCE_RISING, true =>
           if press_delay_ticks self <=? delta
           then DEBOUNCE_HIGH else DEBOUNCE_RISING
       | DEBOUNCE_RISING, false => DEBOUNCE_LOW
       | DEBOUNCE_HIGH, true => DEBOUNCE_HIGH
       | DEBOUNCE_HIGH, false => DEBOUNCE_FALLING
       | DEBOUNCE_FALLING, true => DEBOUNCE_HIGH
       | DEBOUNCE_FALLING, false =>
           if release_delay_ticks self <=? delta
           then DEBOUNCE_LOW else DEBOUNCE_FALLING
       end
  /\ last_update_ticks (snd out)
     = match state self, r with
       | DEBOUNCE_LOW, true | DEBOUNCE_HIGH, false => now
       | _, _ => last_update_ticks self
       end.
Proof.
  step_cases self level;
    repeat split; intros; try reflexivity; try discriminate; try lia;
    try (intuition (discriminate || lia)).
Qed.


Lemma raw_read_level_of (inv r : bool) : raw_read (level_of inv r) inv = r.
Proof. now destruct inv, r. Qed.

Section Steps.
Variable self : debounce_t.
Variable r : bool.
Variable now : Z.

Let level := level_of (inverted self) r.
Let other := level_of (inverted self) (negb r).
Let delta := ticks_sub now (last_update_ticks self).

Lemma enter_tentative :
  state self = confirmed_state (negb r) ->
  debounce_update self level now
  = (DEBOUNCE_NO_EDGE, set_state_and_ticks self (tentative_state r) now).
Proof.
  subst level. unfold debounce_update. rewrite raw_read_level_of.
  intros ->. now destruct r.
Qed.

Lemma stay_confirmed :
  state self = confirmed_state r ->
  debounce_update self level now = (DEBOUNCE_NO_EDGE, self).
Proof.
  subst level. unfold debounce_update. rewrite raw_read_level_of.
  intros ->. now destruct r.
Qed.

Lemma stay_tentative :
  state self = tentative_state r ->
  delta < fsm_window self r ->
  debounce_update self level now = (DEBOUNCE_NO_EDGE, self).
Proof.
  subst level delta. unfold debounce_update, fsm_window.
  rewrite raw_read_level_of. intros -> H.
  destruct r; simpl;
    match goal with |- context [?a <=? ?b] => destruct (Z.leb_spec a b) end;
    (reflexivity || lia).
Qed.

Lemma confirm_tentative :
  state self = tentative_state r ->
  fsm_window self r <= delta ->
  debounce_update self level now
  = (edge_of r, set_state self (confirmed_state r)).
Proof.
  subst level delta. unfold debounce_update, fsm_window.
  rewrite raw_read_level_of. intros -> H.
  destruct r; simpl;
    match goal with |- context [?a <=? ?b] => destruct (Z.leb_spec a b) end;
    (reflexivity || lia).
Qed.

Lemma reject_tentative :
  state self = tentative_state r ->
  debounce_update self other now
  = (DEBOUNCE_NO_EDGE, set_state self (confirmed_state (negb r))).
Proof.
  subst other. unfold debounce_update. rewrite raw_read_level_of.
  intros ->. now destruct r.
Qed.
End Steps.

(** ** The four-state machine: runs *)

Lemma run_app (self : debounce_t) (xs ys : list sample) :
  run self (xs ++ ys)
  = (fst (run self xs) ++ fst (run (snd (run self xs)) ys),
     snd (run (snd (run self xs)) ys)).
Proof.
  revert self. induction xs as [|[level now] xs IH]; intros self; simpl.
  - now destruct (run self ys).
  - destruct (debounce_update self level now) as [e self1].
    rewrite IH. destruct (run self1 xs) as [es self2]; simpl.
    now destruct (run self2 ys).
Qed.

Lemma run_cons (self : debounce_t) (level : bool) (now : Z) (rest : list sample) :
  run self ((level, now) :: rest)
  = (fst (debounce_update self level now)
       :: fst (run (snd (debounce_update self level now)) rest),
     snd (run (snd (debounce_update self level now)) rest)).
Proof.
  simpl. destruct (debounce_update self level now) as [e self1]; simpl.
  now destruct (run self1 rest).
Qed.

(** A confirmed level that keeps being observed changes nothing. *)
Lemma hold_confirmed (self : debounce_t) (r : bool) (t0 : Z) (ds : list Z) :
  state self = confirmed_state r ->
  run self (hold (inverted self) r t0 ds)
  = (repeat DEBOUNCE_NO_EDGE (length ds), self).
Proof.
  intros Hst. induction ds as [|d ds IH]; [reflexivity|].
  unfold hold in *. simpl map. rewrite run_cons.
  rewrite stay_confirmed by assumption. simpl. now rewrite IH.
Qed.

(** A tentative level observed at offsets all short of its window is
    neither confirmed nor rejected. *)
Lemma hold_tentative (self : debounce_t) (r : bool) (t0 : Z) (ds : list Z) :
  state self = tentative_state r ->
  last_update_ticks self = wrap32 t0 ->
  Forall (fun d => in_u32 d /\ d < fsm_window self r) ds ->
  run self (hold (inverted self) r t0 ds)
  = (repeat DEBOUNCE_NO_EDGE (length ds), self).
Proof.
  intros Hst Hlast Hds. induction Hds as [|d ds [Hd Hlt] _ IH]; [reflexivity|].
  unfold hold in *. simpl map. rewrite run_cons.
  rewrite stay_tentative; try assumption.
  - simpl. now rewrite IH.
  - rewrite Hlast, ticks_sub_offset; assumption.
Qed.

(** The whole course of a confirmation: a level first observed at [t0]
    in the opposite confirmed state, observed again at offsets short of
    its window, then at an offset [d] that reaches the window. *)
Lemma confirmation_run (self : debounce_t) (r : bool) (t0 d : Z) (pre : list Z) :
  state self = confirmed_state (negb r) ->
  Forall (fun d' => in_u32 d' /\ d' < fsm_window self r) pre ->
  in_u32 d -> fsm_window self r <= d ->
  run self (hold (inverted self) r t0 (0 :: pre ++ [d]))
  = (DEBOUNCE_NO_EDGE :: repeat DEBOUNCE_NO_EDGE (length pre) ++ [edge_of r],
     set_state (set_state_and_ticks self (tentative_state r) (wrap32 t0))
       (confirmed_state r)).
Proof.
  intros Hst Hpre Hd Hle.
  unfold hold. simpl map. rewrite run_cons, Z.add_0_r.
  rewrite enter_tentative by assumption. simpl fst; simpl snd.
  set (self1 := set_state_and_ticks self (tentative_state r) (wrap32 t0)).
  rewrite map_app, run_app.
  change (map (fun d0 => (level_of (inverted self) r, wrap32 (t0 + d0))) pre)
    with (hold (inverted self1) r t0 pre).
  rewrite (hold_tentative self1 r t0 pre); try reflexivity; try assumption.
  simpl map. rewrite run_cons. simpl fst at 1; simpl snd.
  change (inverted self) with (inverted self1).
  rewrite (confirm_tentative self1 r); try reflexivity.
  simpl last_update_ticks. rewrite ticks_sub_offset; assumption.
Qed.

(** The windows and the polarity are configuration: no update writes them. *)
Lemma debounce_update_config (self : debounce_t) (level : bool) (now : Z) :
  press_delay_ticks (snd (debounce_update self level now)) = press_delay_ticks self
  /\ release_delay_ticks (snd (debounce_update self level now)) = release_delay_ticks self
  /\ inverted (snd (debounce_update self level now)) = inverted self.
Proof. step_cases self level; auto. Qed.

Lemma run_config (obs : list sample) (self : debounce_t) :
  press_delay_ticks (snd (run self obs)) = press_delay_ticks self
  /\ release_delay_ticks (snd (run self obs)) = release_delay_ticks self
  /\ inverted (snd (run self obs)) = inverted self.
Proof.
  revert self. induction obs as [|[level now] obs IH]; intros self; [now simpl|].
  rewrite run_cons. simpl snd.
  destruct (IH (snd (debounce_update self level now))) as (-> & -> & ->).
  apply debounce_update_config.
Qed.

Lemma length_edges (obs : list sample) (self : debounce_t) :
  length (edges self obs) = length obs.
Proof.
  unfold edges. revert self.
  induction obs as [|[level now] obs IH]; intros self; [reflexivity|].
  rewrite run_cons. simpl. now rewrite IH.
Qed.

(** ** Edge alternation *)

(** One update either returns nothing and stays on its side, or returns
    the edge of its side and crosses to the other. *)
Lemma debounce_update_next_edge (self : debounce_t) (level : bool) (now : Z) :
  (fst (debounce_update self level now) = DEBOUNCE_NO_EDGE
   /\ next_edge (snd (debounce_update self level now)) = next_edge self)
  \/ (fst (debounce_update self level now) = next_edge self
      /\ next_edge (snd (debounce_update self level now)) <> next_edge self).
Proof.
  unfold next_edge. step_cases self level;
    solve [left; split; reflexivity | right; split; [reflexivity | discriminate]].
Qed.

Lemma next_edge_not_none (self : debounce_t) : next_edge self <> DEBOUNCE_NO_EDGE.
Proof. unfold next_edge. destruct (state self); discriminate. Qed.

Lemma alternation_from (obs : list sample) (self : debounce_t) :
  alternating (reported (edges self obs))
  /\ (hd_error (reported (edges self obs)) = None
      \/ hd_error (reported (edges self obs)) = Some (next_edge self)).
Proof.
  unfold edges. revert self.
  induction obs as [|[level now] obs IH]; intros self; [simpl; auto|].
  rewrite run_cons. simpl fst.
  specialize (IH (snd (debounce_update self level now))).
  destruct IH as [Halt Hhd].
  destruct (debounce_update_next_edge self level now) as [[He Hn] | [He Hn]].
  - rewrite He. simpl. rewrite <- Hn. auto.
  - rewrite He. unfold reported at 1 2 3. simpl filter.
    pose proof (next_edge_not_none self) as Hne.
    destruct (next_edge self) eqn:E; try congruence; simpl;
      (split; [|now right]);
      fold (reported (fst (run (snd (debounce_update self level now)) obs)));
      destruct (reported (fst (run (snd (debounce_update self level now)) obs)))
        as [|e rest]; simpl in *; auto;
      (split; [|assumption]);
      destruct Hhd as [Hhd | Hhd]; try discriminate;
      injection Hhd as ->; congruence.
Qed.

(** C5. Over any finite sequence of updates from any state the results
    other than [DEBOUNCE_NO_EDGE] alternate: no two consecutive reported
    edges are equal, so two rising edges always have a falling one
    between them and conversely.  The first reported edge, if any, is
    the one that leaves the side the engine started on. *)
Theorem edge_alternation (self : debounce_t) (obs : list sample) :
  alternating (reported (edges self obs))
  /\ Forall (fun e => e = DEBOUNCE_RISING_EDGE \/ e = DEBOUNCE_FALLING_EDGE)
       (reported (edges self obs))
  /\ (hd_error (reported (edges self obs)) = None
      \/ hd_error (reported (edges self obs)) = Some (next_edge self)).
Proof.
  destruct (alternation_from obs self) as [Halt Hhd].
  repeat split; try assumption.
  unfold reported. apply Forall_forall. intros e He.
  apply filter_In in He. destruct He as [_ He].
  destruct e; simpl in He; auto; discriminate.
Qed.

(** ** Counting edges over a held level *)

Lemma count_edge_cons (e e' : debounce_edge_t) (es : list debounce_edge_t) :
  count_edge e (e' :: es)
  = ((if edge_eqb e e' then 1 else 0) + count_edge e es)%nat.
Proof. unfold count_edge. simpl. now destruct (edge_eqb e e'). Qed.

Lemma count_edge_app (e : debounce_edge_t) (xs ys : list debounce_edge_t) :
  count_edge e (xs ++ ys) = (count_edge e xs + count_edge e ys)%nat.
Proof. unfold count_edge. now rewrite filter_app, length_app. Qed.

Lemma count_edge_none (e : debounce_edge_t) (n : nat) :
  e <> DEBOUNCE_NO_EDGE -> count_edge e (repeat DEBOUNCE_NO_EDGE n) = 0%nat.
Proof.
  intros He. induction n as [|n IH]; [reflexivity|].
  simpl repeat. rewrite count_edge_cons, IH.
  destruct e; simpl; congruence.
Qed.

Lemma edge_of_not_none (r : bool) : edge_of r <> DEBOUNCE_NO_EDGE.
Proof. destruct r; discriminate. Qed.

Lemma edge_eqb_edge_of (r r' : bool) : edge_eqb (edge_of r) (edge_of r') = Bool.eqb r r'.
Proof. now destruct r, r'. Qed.

(** A tentative level that keeps being observed is confirmed at most
    once, at the first offset that reaches its window, and the edge of
    the other direction is never returned. *)
Lemma hold_tentative_counts (r : bool) (t0 : Z) (ds : list Z) (self : debounce_t) :
  state self = tentative_state r ->
  last_update_ticks self = wrap32 t0 ->
  Forall in_u32 ds ->
  count_edge (edge_of (negb r)) (edges self (hold (inverted self) r t0 ds)) = 0%nat
  /\ ((Exists (fun d => fsm_window self r <= d) ds
       /\ count_edge (edge_of r) (edges self (hold (inverted self) r t0 ds)) = 1%nat)
      \/ (Forall (fun d => d < fsm_window self r) ds
          /\ edges self (hold (inverted self) r t0 ds)
             = repeat DEBOUNCE_NO_EDGE (length ds))).
Proof.
  intros Hst Hlast Hds. unfold edges.
  induction Hds as [|d ds Hd Hds IH].
  - simpl. split; [reflexivity|]. right. split; [constructor | reflexivity].
  - unfold hold in *. simpl map. rewrite run_cons. simpl fst.
    destruct (Z.lt_ge_cases d (fsm_window self r)) as [Hlt | Hge].
    + rewrite stay_tentative;
        [| assumption | rewrite Hlast, ticks_sub_offset; assumption].
      simpl fst; simpl snd. rewrite !count_edge_cons.
      destruct IH as [IH0 IH1]. rewrite IH0.
      split; [now destruct r|].
      destruct IH1 as [[Hex Hc] | [Hall Heq]].
      * left. split; [now apply Exists_cons_tl|]. rewrite Hc. now destruct r.
      * right. split; [now constructor|]. simpl. now rewrite Heq.
    + rewrite confirm_tentative;
        [| assumption | rewrite Hlast, ticks_sub_offset; assumption].
      simpl fst; simpl snd.
      change (map (fun d0 => (level_of (inverted self) r, wrap32 (t0 + d0))) ds)
        with (hold (inverted (set_state self (confirmed_state r))) r t0 ds).
      rewrite hold_confirmed by reflexivity. simpl fst.
      rewrite !count_edge_cons, !count_edge_none by apply edge_of_not_none.
      rewrite !edge_eqb_edge_of.
      split; [now destruct r|].
      left. split; [now apply Exists_cons_hd | now destruct r].
Qed.

(** ** Hysteresis *)

(** C7. An engine initialised with a press window of 50 ms and a release
    window of 20 ms, in state [DEBOUNCE_HIGH] after any history of
    updates.  When the inactive level is then observed over a stretch
    that reaches 25 ms, exactly one of the updates of the stretch returns
    the falling edge (and none a rising edge).  When it is observed for
    at most 15 ms and the active level is observed afterwards, every
    update returns [DEBOUNCE_NO_EDGE].  Durations are tick counts of the
    wrapping counter; the conversion must tell 15 ms from 20 ms. *)
Theorem hysteresis_independence
    (pdMS_TO_TICKS : Z -> Z) (pin : Z) (inv level0 : bool) (now0 : Z)
    (history : list sample) (t0 t1 : Z) (polls back : list Z) :
  let self := final (debounce_init pdMS_TO_TICKS pin inv 50 20 level0 now0) history in
  state self = DEBOUNCE_HIGH ->
  0 <= pdMS_TO_TICKS 15 < pdMS_TO_TICKS 20 ->
  pdMS_TO_TICKS 20 <= pdMS_TO_TICKS 25 < TICK_MODULUS ->
  (Forall in_u32 polls ->
   let es := edges self (hold inv false t0 (0 :: polls ++ [pdMS_TO_TICKS 25])) in
   count_edge DEBOUNCE_FALLING_EDGE es = 1%nat
   /\ count_edge DEBOUNCE_RISING_EDGE es = 0%nat)
  /\ (Forall (fun d => 0 <= d <= pdMS_TO_TICKS 15) polls ->
      edges self (hold inv false t0 (0 :: polls) ++ hold inv true t1 back)
      = repeat DEBOUNCE_NO_EDGE (1 + length polls + length back)).
Proof.
  intros self Hst H15 H25.
  assert (Hcfg : press_delay_ticks self = pdMS_TO_TICKS 50
                 /\ release_delay_ticks self = pdMS_TO_TICKS 20
                 /\ inverted self = inv).
  { subst self. unfold final.
    destruct (run_config history
                (debounce_init pdMS_TO_TICKS pin inv 50 20 level0 now0))
      as (-> & -> & ->). now simpl. }
  destruct Hcfg as (_ & Hrel & Hinv).
  assert (Hfirst : forall ds,
             run self (hold inv false t0 (0 :: ds))
             = (DEBOUNCE_NO_EDGE
                  :: fst (run (set_state_and_ticks self DEBOUNCE_FALLING (wrap32 t0))
                            (hold inv false t0 ds)),
                snd (run (set_state_and_ticks self DEBOUNCE_FALLING (wrap32 t0))
                       (hold inv false t0 ds)))).
  { intros ds. unfold hold. simpl map. rewrite run_cons, Z.add_0_r.
    rewrite <- Hinv at 1 2 3.
    rewrite (enter_tentative self false) by exact Hst. reflexivity. }
  set (self1 := set_state_and_ticks self DEBOUNCE_FALLING (wrap32 t0)) in *.
  assert (Hw : fsm_window self1 false = pdMS_TO_TICKS 20) by exact Hrel.
  assert (Hinv1 : inverted self1 = inv) by exact Hinv.
  split.
  - intros Hpolls es. subst es. unfold edges. rewrite Hfirst. simpl fst.
    rewrite !count_edge_cons. simpl edge_eqb.
    assert (Hall : Forall in_u32 (polls ++ [pdMS_TO_TICKS 25])).
    { apply Forall_app. split; [assumption|].
      constructor; [|constructor]. unfold in_u32. lia. }
    destruct (hold_tentative_counts false t0 _ self1 eq_refl eq_refl Hall)
      as [Hother Hsame].
    rewrite Hinv1 in Hother, Hsame. unfold edges in Hother, Hsame.
    simpl negb in Hother. simpl edge_of in Hother, Hsame.
    rewrite Hother. split; [|reflexivity].
    destruct Hsame as [[_ Hc] | [Hlt _]]; [now rewrite Hc|].
    apply Forall_app in Hlt. destruct Hlt as [_ Hlt].
    inversion Hlt as [|? ? Hx _]. rewrite Hw in Hx. lia.
  - intros Hpolls. unfold edges. rewrite run_app. cbn [fst snd].
    rewrite Hfirst. cbn [fst snd].
    rewrite <- Hinv1 at 1 2.
    rewrite (hold_tentative self1 false t0 polls); try reflexivity.
    + simpl fst; simpl snd.
      destruct back as [|d back].
      * simpl. now rewrite app_nil_r, Nat.add_0_r.
      * unfold hold at 1. simpl map. rewrite run_cons.
        rewrite <- Hinv1 at 1 2.
        rewrite (reject_tentative self1 false) by reflexivity.
        simpl fst; simpl snd.
        change (map (fun d0 => (level_of inv true, wrap32 (t1 + d0))) back)
          with (hold inv true t1 back).
        replace inv with (inverted (set_state self1 (confirmed_state (negb false))))
          by exact Hinv1.
        rewrite hold_confirmed by reflexivity. simpl fst.
        change (repeat DEBOUNCE_NO_EDGE (S (length polls))
                  ++ repeat DEBOUNCE_NO_EDGE (S (length back))
                = repeat DEBOUNCE_NO_EDGE (1 + length polls + length (d :: back))).
        rewrite <- repeat_app. reflexivity.
    + rewrite Hw. eapply Forall_impl; [|exact Hpolls].
      intros d Hd. cbv beta in Hd. unfold in_u32. lia.
Qed.

(** ** Bounce rejection, four-state machine *)

Lemma bounce_step (self : debounce_t) (level : bool) (now : Z)
    (prev : bool) (since : option Z) :
  fsm_tracks self prev since ->
  match (if Bool.eqb (raw_read level (inverted self)) prev then since else Some now) with
  | Some t => ticks_sub now t < fsm_window self (raw_read level (inverted self))
  | None => True
  end ->
  fst (debounce_update self level now) = DEBOUNCE_NO_EDGE
  /\ fsm_tracks (snd (debounce_update self level now))
       (raw_read level (inverted self))
       (if Bool.eqb (raw_read level (inverted self)) prev then since else Some now).
Proof.
  unfold fsm_tracks, fsm_window, debounce_update, raw_read.
  destruct self as [p inv last press release st]; simpl.
  destruct st, inv, level; simpl; intros Htr Hlt;
    repeat match goal with
           | H : _ /\ _ |- _ => destruct H
           end;
    subst; simpl in *;
    repeat match goal with
           | |- context [?a <=? ?b] => destruct (Z.leb_spec a b)
           end;
    simpl; auto; lia.
Qed.

Lemma bounce_rejected (obs : list sample) (self : debounce_t)
    (prev : bool) (since : option Z) :
  fsm_tracks self prev since ->
  never_settles (inverted self) (fsm_window self) prev since obs ->
  edges self obs = repeat DEBOUNCE_NO_EDGE (length obs).
Proof.
  unfold edges. revert self prev since.
  induction obs as [|[level now] obs IH]; intros self prev since Htr Hns;
    [reflexivity|].
  simpl in Hns. destruct Hns as [Hnow Hrest].
  destruct (bounce_step self level now prev since Htr Hnow) as [He Htr'].
  rewrite run_cons. cbn [fst length repeat]. rewrite He. f_equal.
  destruct (debounce_update_config self level now) as (Hp & Hr & Hi).
  apply (IH _ _ _ Htr').
  rewrite Hi.
  replace (fsm_window (snd (debounce_update self level now)))
    with (fsm_window self); [exact Hrest|].
  unfold fsm_window. now rewrite Hp, Hr.
Qed.

(** ** Wrap-around, four-state machine *)

Lemma elapsed_decides (self : debounce_t) (level : bool) (t_last t_now : Z) :
  last_update_ticks self = wrap32 t_last ->
  0 <= t_now - t_last < TICK_MODULUS ->
  (fst (debounce_update self level (wrap32 t_now)) = DEBOUNCE_RISING_EDGE <->
   state self = DEBOUNCE_RISING /\ raw_read level (inverted self) = true
   /\ press_delay_ticks self <= t_now - t_last)
  /\ (fst (debounce_update self level (wrap32 t_now)) = DEBOUNCE_FALLING_EDGE <->
      state self = DEBOUNCE_FALLING /\ raw_read level (inverted self) = false
      /\ release_delay_ticks self <= t_now - t_last).
Proof.
  intros Hlast Hrange.
  unfold debounce_update. rewrite Hlast, ticks_sub_wrap.
  rewrite (wrap32_small (t_now - t_last)) by exact Hrange.
  unfold raw_read.
  destruct self as [p inv last press release st]; simpl.
  destruct st, inv, level; simpl;
    repeat match goal with
           | |- context [?a <=? ?b] => destruct (Z.leb_spec a b)
           end;
    simpl; split; split; intros; try discriminate; try reflexivity;
    try (intuition (discriminate || lia)).
Qed.

(** ** Zero windows, four-state machine *)

Lemma zero_window_steps (self : debounce_t) (r : bool) (now now' : Z) :
  fsm_window self r = 0 ->
  state self = confirmed_state (negb r) ->
  debounce_update self (level_of (inverted self) r) now
  = (DEBOUNCE_NO_EDGE, set_state_and_ticks self (tentative_state r) now)
  /\ debounce_update (set_state_and_ticks self (tentative_state r) now)
       (level_of (inverted self) r) now'
     = (edge_of r, set_state_and_ticks self (confirmed_state r) now).
Proof.
  intros Hw Hst. split; [now apply enter_tentative|].
  change (inverted self)
    with (inverted (set_state_and_ticks self (tentative_state r) now)).
  rewrite confirm_tentative; [reflexivity | reflexivity |].
  change (fsm_window (set_state_and_ticks self (tentative_state r) now) r)
    with (fsm_window self r).
  rewrite Hw. apply wrap32_range.
Qed.

End FSMFacts.

(** ** The two-state debouncer *)

Module ArduinoFacts.
Import Arduino.

(** *** A pending edge survives polling *)

Lemma update_keeps_pending (self : SoftwareDebounce) (level : bool) (cur_time : Z) :
  state_changed self = true ->
  state_changed (update self level cur_time) = true
  /\ prev_stable_state (update self level cur_time) = prev_stable_state self.
Proof.
  destruct self as [p inv cur stable last delay changed]; simpl.
  intros ->. unfold update, read_raw_state; simpl.
  destruct (negb (Bool.eqb (if inv then negb level else level) cur)); simpl; auto.
Qed.

(** C10. While [state_changed] is set, no [update] touches
    [prev_stable_state] or [state_changed], whatever level and timestamp
    it observes, one call or any number of them: the confirmed edge and
    its classification stay as they are until an accessor consumes them. *)
Theorem pending_edge_preserved (self : SoftwareDebounce) (obs : list sample) :
  state_changed self = true ->
  state_changed (updates self obs) = true
  /\ prev_stable_state (updates self obs) = prev_stable_state self
  /\ (forall level cur_time,
        state_changed (update self level cur_time) = true
        /\ prev_stable_state (update self level cur_time) = prev_stable_state self).
Proof.
  intros Hch. split; [|split].
  - revert self Hch. unfold updates.
    induction obs as [|[level t] obs IH]; intros self Hch; [exact Hch|].
    simpl. apply IH. now apply update_keeps_pending.
  - revert self Hch. unfold updates.
    induction obs as [|[level t] obs IH]; intros self Hch; [reflexivity|].
    simpl. destruct (update_keeps_pending self level t Hch) as [H1 H2].
    now rewrite IH, H2.
  - intros level cur_time. now apply update_keeps_pending.
Qed.

(** *** The accessors *)

Lemma call_pending (a : accessor) (self : SoftwareDebounce) :
  state_changed self = true ->
  fst (call a self) = classifies a self
  /\ state_changed (snd (call a self)) = false
  /\ prev_stable_state (snd (call a self)) = prev_stable_state self.
Proof.
  destruct self as [p inv cur stable last delay changed]; simpl. intros ->.
  destruct a; unfold call, get_rising_edge, get_falling_edge, get_changed; simpl; auto.
Qed.

Lemma call_idle (a : accessor) (self : SoftwareDebounce) :
  state_changed self = false -> call a self = (false, self).
Proof.
  destruct self as [p inv cur stable last delay changed]; simpl. intros ->.
  now destruct a.
Qed.

Lemma calls_idle (cs : list accessor) (self : SoftwareDebounce) :
  state_changed self = false -> calls cs self = (repeat false (length cs), self).
Proof.
  intros Hch. induction cs as [|a cs IH]; [reflexivity|].
  simpl. rewrite call_idle by assumption. now rewrite IH.
Qed.

Lemma count_true_repeat_false (n : nat) :
  count_occ bool_dec (repeat false n) true = 0%nat.
Proof. induction n as [|n IH]; [reflexivity | exact IH]. Qed.

(** C3, as the code has it.  After a confirmed transition
    ([state_changed] set) and before the next update, only the first
    accessor call can return true, and it does exactly when it is the
    accessor that classifies the transition: [get_rising_edge] when the
    confirmed state is active, [get_falling_edge] when it is inactive.
    That call clears the flag whichever accessor it is, and every later
    call returns false: the transition is delivered at most once, and not
    at all when the other accessor is called first. *)
Theorem accessors_after_transition (self : SoftwareDebounce) (cs : list accessor) :
  state_changed self = true ->
  fst (calls cs self)
  = match cs with
    | [] => []
    | a :: rest => classifies a self :: repeat false (length rest)
    end
  /\ (deliveries cs self <= 1)%nat
  /\ (cs <> [] -> state_changed (snd (calls cs self)) = false)
  /\ prev_stable_state (snd (calls cs self)) = prev_stable_state self.
Proof.
  intros Hch. destruct cs as [|a rest].
  - simpl. repeat split; auto. congruence.
  - simpl calls.
    destruct (call_pending a self Hch) as (Hres & Hclr & Hst).
    destruct (call a self) as [b self1] eqn:Hc; simpl in Hres, Hclr, Hst.
    rewrite (calls_idle rest self1 Hclr). simpl. subst b.
    repeat split; auto.
    unfold deliveries. simpl calls. rewrite Hc. rewrite (calls_idle rest self1 Hclr).
    destruct (classifies a self); simpl;
      rewrite count_true_repeat_false; lia.
Qed.


(** *** Simulation by the four-state machine *)

(** The strict comparison of [update] against a delay is the inclusive
    comparison of [debounce_update] against the delay plus one. *)
Lemma strict_is_inclusive_succ (delay elapsed : Z) :
  (delay <? elapsed) = (delay + 1 <=? elapsed).
Proof.
  destruct (Z.ltb_spec delay elapsed), (Z.leb_spec (delay + 1) elapsed);
    (reflexivity || lia).
Qed.

(** One polling round of the two-state debouncer, its edge consumed by
    the matching accessor, is one update of the four-state machine whose
    two windows are the delay plus one. *)
Lemma poll_simulates (a : SoftwareDebounce) (f : FSM.debounce_t)
    (level : bool) (now : Z) :
  corresponds a f ->
  0 <= delay_time a ->
  FSM.press_delay_ticks f = delay_time a + 1 ->
  FSM.release_delay_ticks f = delay_time a + 1 ->
  fst (poll a level now) = fst (FSM.debounce_update f level now)
  /\ corresponds (snd (poll a level now)) (snd (FSM.debounce_update f level now))
  /\ delay_time (snd (poll a level now)) = delay_time a.
Proof.
  unfold corresponds.
  destruct a as [p inv cur stable last delay changed].
  destruct f as [fp finv flast press release st]. simpl.
  intros (-> & -> & Hst) Hdelay -> ->.
  unfold poll, update, read_raw_state, FSM.debounce_update, FSM.raw_read,
    matching_accessor, call, get_rising_edge, get_falling_edge, get_changed.
  simpl. rewrite <- !strict_is_inclusive_succ.
  destruct st; simpl in Hst;
    repeat match goal with
           | H : _ /\ _ |- _ => destruct H
           end;
    subst;
    destruct finv, level; simpl; rewrite ?ticks_sub_diag;
    repeat match goal with
           | |- context [?x <? ?y] => destruct (Z.ltb_spec x y); simpl
           end;
    try lia; auto 10.
Qed.

Lemma run_simulates (obs : list sample) (a : SoftwareDebounce) (f : FSM.debounce_t) :
  corresponds a f ->
  0 <= delay_time a ->
  FSM.press_delay_ticks f = delay_time a + 1 ->
  FSM.release_delay_ticks f = delay_time a + 1 ->
  edges a obs = FSM.edges f obs.
Proof.
  unfold edges, FSM.edges. revert a f.
  induction obs as [|[level now] obs IH]; intros a f Hc Hd Hp Hr; [reflexivity|].
  rewrite FSMFacts.run_cons. simpl run.
  destruct (poll_simulates a f level now Hc Hd Hp Hr) as (He & Hc' & Hd').
  destruct (FSMFacts.debounce_update_config f level now) as (Hp' & Hr' & _).
  destruct (poll a level now) as [e a1]. simpl in He, Hc', Hd'.
  specialize (IH a1 (snd (FSM.debounce_update f level now)) Hc').
  destruct (run a1 obs) as [es a2]. simpl in *.
  rewrite He. f_equal. apply IH; congruence.
Qed.

(** The four-state machine that stands for a two-state debouncer at
    rest: same polarity, both windows the delay plus one. *)
Lemma corresponds_at_rest (a : SoftwareDebounce) :
  state_changed a = false ->
  cur_state a = prev_stable_state a ->
  corresponds a
    (FSM.mk_debounce (pin a) (inverted a) (last_change_time a)
       (delay_time a + 1) (delay_time a + 1)
       (confirmed_state (prev_stable_state a))).
Proof.
  unfold corresponds. intros -> ->.
  destruct (prev_stable_state a); simpl; auto.
Qed.

(** *** Wrap-around *)

Lemma update_elapsed_decides (self : SoftwareDebounce) (level : bool)
    (t_last t_now : Z) :
  last_change_time self = wrap32 t_last ->
  0 <= t_now - t_last < TICK_MODULUS ->
  state_changed self = false ->
  read_raw_state self level = cur_state self ->
  (state_changed (update self level (wrap32 t_now)) = true <->
   delay_time self < t_now - t_last /\ cur_state self <> prev_stable_state self).
Proof.
  destruct self as [p inv cur stable last delay changed].
  unfold update, read_raw_state. simpl.
  intros -> Hrange -> ->. rewrite eqb_reflx. simpl.
  rewrite ticks_sub_wrap, (wrap32_small (t_now - t_last)) by exact Hrange.
  destruct (Z.ltb_spec delay (t_now - t_last)); simpl.
  - destruct cur, stable; simpl; split; intros; try discriminate; try reflexivity;
      try (split; [lia | discriminate]); intuition congruence.
  - split; [discriminate | lia].
Qed.

End ArduinoFacts.

(** ** Properties of both variants *)

Module Variants.
Import FSM.

Lemma never_settles_weaken (inv : bool) (w1 w2 : bool -> Z) (obs : list sample)
    (prev : bool) (since : option Z) :
  (forall r, w1 r <= w2 r) ->
  never_settles inv w1 prev since obs ->
  never_settles inv w2 prev since obs.
Proof.
  intros Hle. revert prev since.
  induction obs as [|[level now] obs IH]; intros prev since; [trivial|].
  simpl. intros [Hnow Hrest]. split; [|now apply IH].
  destruct (if Bool.eqb (if inv then negb level else level) prev
            then since else Some now); [|exact I].
  specialize (Hle (if inv then negb level else level)). lia.
Qed.

(** A level that flips at every poll is rejected at every poll, whatever
    the windows: a tentative state is always left by contradiction. *)
Lemma flipping_step (self : debounce_t) (r : bool) (now : Z) :
  rejects_next self r ->
  fst (debounce_update self (level_of (inverted self) r) now) = DEBOUNCE_NO_EDGE
  /\ rejects_next (snd (debounce_update self (level_of (inverted self) r) now)) (negb r).
Proof.
  unfold rejects_next, debounce_update. rewrite FSMFacts.raw_read_level_of.
  destruct self as [p inv last press release st]; simpl.
  destruct st, r; simpl; intros H; try discriminate; auto.
Qed.

Lemma flipping_no_edge (n : nat) (self : debounce_t) (r : bool) (t0 period : Z) :
  rejects_next self r ->
  edges self (flipping (inverted self) r t0 period n)
  = repeat DEBOUNCE_NO_EDGE n.
Proof.
  unfold edges. revert self r t0.
  induction n as [|n IH]; intros self r t0 Hrej; [reflexivity|].
  simpl flipping. rewrite FSMFacts.run_cons. cbn [fst repeat].
  destruct (flipping_step self r (wrap32 t0) Hrej) as [He Hrej'].
  destruct (FSMFacts.debounce_update_config self (level_of (inverted self) r)
              (wrap32 t0)) as (_ & _ & Hinv).
  rewrite He. f_equal.
  set (self1 := snd (debounce_update self (level_of (inverted self) r) (wrap32 t0))) in *.
  rewrite <- Hinv. now apply IH.
Qed.

Lemma confirmed_rejects_next (self : debounce_t) (prev r : bool) :
  fsm_confirmed self = Some prev -> rejects_next self r.
Proof.
  unfold fsm_confirmed, rejects_next. destruct (state self); (discriminate || trivial).
Qed.

Lemma confirmed_tracks (self : debounce_t) (prev : bool) :
  fsm_confirmed self = Some prev -> fsm_tracks self prev None.
Proof.
  unfold fsm_confirmed, fsm_tracks.
  destruct (state self); intros H; try discriminate; congruence.
Qed.

(** The four-state machine that stands for the two-state debouncer [a]
    at rest. *)
Lemma at_rest_simulated (a : Arduino.SoftwareDebounce) (obs : list sample) :
  Arduino.state_changed a = false ->
  Arduino.cur_state a = Arduino.prev_stable_state a ->
  0 <= Arduino.delay_time a ->
  Arduino.edges a obs
  = edges (mk_debounce (Arduino.pin a) (Arduino.inverted a)
             (Arduino.last_change_time a)
             (Arduino.delay_time a + 1) (Arduino.delay_time a + 1)
             (confirmed_state (Arduino.prev_stable_state a))) obs.
Proof.
  intros Hch Hcur Hd.
  apply ArduinoFacts.run_simulates; try assumption; try reflexivity.
  now apply ArduinoFacts.corresponds_at_rest.
Qed.


(** *** Exact-threshold confirmation *)

(** C2, as the code has it.  From the confirmed-low state, with the
    active level first observed at [t0] and observed again at offsets
    short of the window [w]: the four-state machine returns its one
    rising edge at the observation made exactly [w] ticks after [t0]
    (the comparison of [debounce_update] is inclusive); the two-state
    debouncer confirms nothing at that observation (the comparison of
    [update] is strict) and reports the rising edge at the first
    observation made more than [w] ticks after [t0]. *)
Theorem threshold_confirmation
    (f : debounce_t) (a : Arduino.SoftwareDebounce) (t0 d : Z) (pre : list Z) :
  state f = DEBOUNCE_LOW ->
  Arduino.state_changed a = false ->
  Arduino.cur_state a = false ->
  Arduino.prev_stable_state a = false ->
  press_delay_ticks f = Arduino.delay_time a ->
  in_u32 (Arduino.delay_time a) ->
  Forall (fun d' => in_u32 d' /\ d' < Arduino.delay_time a) pre ->
  in_u32 d ->
  Arduino.delay_time a < d ->
  confirms_at_threshold (edges f) (inverted f) (press_delay_ticks f) t0 pre
  /\ Arduino.edges a
       (hold (Arduino.inverted a) true t0 (0 :: pre ++ [Arduino.delay_time a; d]))
     = DEBOUNCE_NO_EDGE
         :: repeat DEBOUNCE_NO_EDGE (length pre)
         ++ [DEBOUNCE_NO_EDGE; DEBOUNCE_RISING_EDGE].
Proof.
  intros Hst Hch Hcur Hstable Hw Hrange Hpre Hd Hlt. split.
  - unfold confirms_at_threshold, edges.
    rewrite (FSMFacts.confirmation_run f true t0 (press_delay_ticks f) pre);
      try assumption; try reflexivity.
    + unfold fsm_window. now rewrite Hw.
    + now rewrite Hw.
  - rewrite at_rest_simulated; try congruence; [|apply Hrange].
    rewrite Hstable. unfold edges.
    set (f' := mk_debounce _ _ _ _ _ _).
    replace (pre ++ [Arduino.delay_time a; d])
      with ((pre ++ [Arduino.delay_time a]) ++ [d])
      by now rewrite <- app_assoc.
    change (Arduino.inverted a) with (inverted f').
    rewrite (FSMFacts.confirmation_run f' true t0 d (pre ++ [Arduino.delay_time a]));
      try assumption; try reflexivity.
    + cbn [fst]. rewrite length_app, repeat_app, <- app_assoc. reflexivity.
    + apply Forall_app. split.
      * eapply Forall_impl; [|exact Hpre]. simpl. intros x [Hx Hx']. split; [exact Hx | lia].
      * constructor; [|constructor]. simpl. split; [exact Hrange | lia].
    + simpl. lia.
Qed.

(** The two-state debouncer at its threshold: built with a delay of 50,
    the active level seen at 100 and again at 150, exactly 50 later. *)
Lemma two_state_threshold_is_strict :
  ~ confirms_at_threshold (Arduino.edges (Arduino.construct 4 true 50 true))
      true 50 100 [].
Proof. unfold confirms_at_threshold. vm_compute. discriminate. Qed.

(** *** The two variants compared *)

(** C4, as the code has it.  The two-state debouncer with delay [w],
    each of its edges read right after [update] through the accessor of
    the confirmed level, reports over every sequence of observations the
    edges that the four-state machine with both windows [w + 1] returns,
    from any state of the one that corresponds to the state of the
    other.  The windows differ by one tick because [update] compares
    strictly and [debounce_update] inclusively.  Delay and windows are
    values of the 32-bit fields that hold them, so [w + 1] is below
    [2 ^ 32]: the largest delay has no four-state counterpart. *)
Theorem variants_agree_up_to_threshold
    (a : Arduino.SoftwareDebounce) (f : debounce_t) (obs : list sample) :
  corresponds a f ->
  in_u32 (Arduino.delay_time a) ->
  in_u32 (press_delay_ticks f) ->
  in_u32 (release_delay_ticks f) ->
  press_delay_ticks f = Arduino.delay_time a + 1 ->
  release_delay_ticks f = Arduino.delay_time a + 1 ->
  Arduino.edges a obs = edges f obs.
Proof.
  intros Hc [Hd _] _ _ Hp Hr.
  now apply ArduinoFacts.run_simulates.
Qed.

(** Equal windows of 50 on both sides, both engines initialised on the
    inactive level: the four-state machine returns the rising edge at
    the observation 50 after the first, the two-state debouncer none. *)
Lemma equal_windows_differ :
  Arduino.edges (Arduino.construct 4 true 50 true) [(false, 100); (false, 150)]
  <> edges (debounce_init (fun ms => ms) 4 true 50 50 true 0)
       [(false, 100); (false, 150)].
Proof. vm_compute. discriminate. Qed.

(** *** Bounce rejection *)

(** C6. Both engines start at rest on the confirmed level [prev].  Over
    observations in which every observation made after a change of the
    logical level comes less than the window after the most recent
    change (the press window for an active level, the release window for
    an inactive one, the one delay of the two-state debouncer), every
    update returns [DEBOUNCE_NO_EDGE] and the two-state debouncer reports
    no edge.  In particular a level that flips at every poll, 10 ticks
    apart, for any number [n] of polls, never gives an edge. *)
Theorem bounce_rejection
    (f : debounce_t) (a : Arduino.SoftwareDebounce) (prev : bool)
    (obs : list sample) (r0 : bool) (t0 : Z) (n : nat) :
  fsm_confirmed f = Some prev ->
  Arduino.state_changed a = false ->
  Arduino.cur_state a = prev ->
  Arduino.prev_stable_state a = prev ->
  0 <= Arduino.delay_time a ->
  (never_settles (inverted f) (fsm_window f) prev None obs ->
   edges f obs = repeat DEBOUNCE_NO_EDGE (length obs))
  /\ (never_settles (Arduino.inverted a) (fun _ => Arduino.delay_time a) prev None obs ->
      Arduino.edges a obs = repeat DEBOUNCE_NO_EDGE (length obs))
  /\ edges f (flipping (inverted f) r0 t0 10 n) = repeat DEBOUNCE_NO_EDGE n
  /\ Arduino.edges a (flipping (Arduino.inverted a) r0 t0 10 n)
     = repeat DEBOUNCE_NO_EDGE n.
Proof.
  intros Hf Hch Hcur Hstable Hd.
  assert (Hrest : fsm_confirmed
                    (mk_debounce (Arduino.pin a) (Arduino.inverted a)
                       (Arduino.last_change_time a)
                       (Arduino.delay_time a + 1) (Arduino.delay_time a + 1)
                       (confirmed_state (Arduino.prev_stable_state a)))
                  = Some prev).
  { rewrite Hstable. now destruct prev. }
  repeat split.
  - intros Hns. eapply FSMFacts.bounce_rejected; [|exact Hns].
    now apply confirmed_tracks.
  - intros Hns. rewrite at_rest_simulated by congruence.
    eapply FSMFacts.bounce_rejected; [apply confirmed_tracks, Hrest|].
    simpl inverted. eapply never_settles_weaken; [|exact Hns].
    intros r. unfold fsm_window. simpl. destruct r; lia.
  - apply flipping_no_edge. eapply confirmed_rejects_next, Hf.
  - rewrite at_rest_simulated by congruence.
    set (f' := mk_debounce _ _ _ _ _ _) in *.
    change (Arduino.inverted a) with (inverted f').
    apply flipping_no_edge. eapply confirmed_rejects_next, Hrest.
Qed.

(** *** Wrap-around *)

(** C8. [t_last] and [t_now] are instants on an unbounded clock, less
    than [2 ^ 32] ticks apart; the engines only ever see them modulo
    [2 ^ 32].  The unsigned subtraction of the two wrapped counters is
    the true duration, also when the wrapped [t_now] is the smaller
    number, and the threshold comparisons of both updates are decided by
    the true duration alone. *)
Theorem wraparound_safe
    (f : debounce_t) (a : Arduino.SoftwareDebounce) (level : bool)
    (t_last t_now : Z) :
  0 <= t_now - t_last < TICK_MODULUS ->
  last_update_ticks f = wrap32 t_last ->
  Arduino.last_change_time a = wrap32 t_last ->
  Arduino.state_changed a = false ->
  Arduino.read_raw_state a level = Arduino.cur_state a ->
  ticks_sub (wrap32 t_now) (wrap32 t_last) = t_now - t_last
  /\ (fst (debounce_update f level (wrap32 t_now)) = DEBOUNCE_RISING_EDGE <->
      state f = DEBOUNCE_RISING /\ raw_read level (inverted f) = true
      /\ press_delay_ticks f <= t_now - t_last)
  /\ (fst (debounce_update f level (wrap32 t_now)) = DEBOUNCE_FALLING_EDGE <->
      state f = DEBOUNCE_FALLING /\ raw_read level (inverted f) = false
      /\ release_delay_ticks f <= t_now - t_last)
  /\ (Arduino.state_changed (Arduino.update a level (wrap32 t_now)) = true <->
      Arduino.delay_time a < t_now - t_last
      /\ Arduino.cur_state a <> Arduino.prev_stable_state a).
Proof.
  intros Hrange Hf Ha Hch Hraw.
  split; [|split; [|split]].
  - rewrite ticks_sub_wrap. now apply wrap32_small.
  - now apply FSMFacts.elapsed_decides.
  - now apply FSMFacts.elapsed_decides.
  - now apply ArduinoFacts.update_elapsed_decides.
Qed.

(** *** Zero windows *)

(** C9, as the code has it.  A window of zero is accepted.  The update
    at which the logical level [r] is first seen to differ from the
    confirmed state returns no edge in either variant: it only enters
    the tentative state, or restarts the timer.  The four-state machine
    returns the edge of [r] at the next update that still observes [r],
    whatever its timestamp; the two-state debouncer reports it at the
    next such update only if the counter has moved in between. *)
Theorem zero_window_confirmation
    (f : debounce_t) (a : Arduino.SoftwareDebounce) (r : bool) (now now' : Z) :
  fsm_window f r = 0 ->
  state f = confirmed_state (negb r) ->
  Arduino.delay_time a = 0 ->
  Arduino.state_changed a = false ->
  Arduino.cur_state a = negb r ->
  Arduino.prev_stable_state a = negb r ->
  let f1 := set_state_and_ticks f (tentative_state r) now in
  let a1 := snd (Arduino.poll a (level_of (Arduino.inverted a) r) now) in
  debounce_update f (level_of (inverted f) r) now = (DEBOUNCE_NO_EDGE, f1)
  /\ fst (debounce_update f1 (level_of (inverted f) r) now') = edge_of r
  /\ fst (Arduino.poll a (level_of (Arduino.inverted a) r) now) = DEBOUNCE_NO_EDGE
  /\ (ticks_sub now' now = 0 ->
      fst (Arduino.poll a1 (level_of (Arduino.inverted a) r) now') = DEBOUNCE_NO_EDGE)
  /\ (ticks_sub now' now <> 0 ->
      fst (Arduino.poll a1 (level_of (Arduino.inverted a) r) now') = edge_of r).
Proof.
  intros Hw Hst Hdelay Hch Hcur Hstable f1 a1.
  destruct (FSMFacts.zero_window_steps f r now now' Hw Hst) as [H1 H2].
  split; [exact H1|]. split; [subst f1; now rewrite H2|].
  pose proof (wrap32_range (now' - now)) as Hpos. unfold in_u32 in Hpos.
  fold (ticks_sub now' now) in Hpos.
  set (lv := level_of (Arduino.inverted a) r) in *.
  set (f' := mk_debounce (Arduino.pin a) (Arduino.inverted a)
               (Arduino.last_change_time a)
               (Arduino.delay_time a + 1) (Arduino.delay_time a + 1)
               (confirmed_state (Arduino.prev_stable_state a))).
  assert (Hc : corresponds a f')
    by (apply ArduinoFacts.corresponds_at_rest; congruence).
  assert (Hd0 : 0 <= Arduino.delay_time a) by lia.
  destruct (ArduinoFacts.poll_simulates a f' lv now Hc Hd0 eq_refl eq_refl)
    as (He & Hc1 & Hd1).
  assert (Hstep : debounce_update f' lv now
                  = (DEBOUNCE_NO_EDGE, set_state_and_ticks f' (tentative_state r) now)).
  { apply (FSMFacts.enter_tentative f' r now). simpl. now rewrite Hstable. }
  rewrite Hstep in He, Hc1. cbn [fst snd] in He, Hc1.
  split; [exact He|].
  subst a1. set (a1 := snd (Arduino.poll a lv now)) in *.
  set (f1' := set_state_and_ticks f' (tentative_state r) now) in *.
  assert (Hd1' : 0 <= Arduino.delay_time a1) by lia.
  assert (Hp1 : press_delay_ticks f1' = Arduino.delay_time a1 + 1)
    by (simpl; lia).
  assert (Hr1 : release_delay_ticks f1' = Arduino.delay_time a1 + 1)
    by (simpl; lia).
  destruct (ArduinoFacts.poll_simulates a1 f1' lv now' Hc1 Hd1' Hp1 Hr1)
    as (He' & _ & _).
  rewrite He'. change lv with (level_of (inverted f1') r).
  assert (Hw1 : fsm_window f1' r = 1).
  { unfold fsm_window. simpl. destruct r; lia. }
  split; intros Ht.
  - rewrite (FSMFacts.stay_tentative f1' r now'); [reflexivity | reflexivity |].
    simpl last_update_ticks. rewrite Hw1. lia.
  - rewrite (FSMFacts.confirm_tentative f1' r now'); [reflexivity | reflexivity |].
    simpl last_update_ticks. rewrite Hw1. lia.
Qed.

(** Both windows zero, the engines initialised on the inactive level:
    the update that first observes the active level returns no edge. *)
Lemma zero_window_first_update_silent :
  let f := debounce_init (fun ms => ms) 4 true 0 0 true 0 in
  let a := Arduino.construct 4 true 0 true in
  state f = DEBOUNCE_LOW
  /\ raw_read false (inverted f) = true
  /\ fst (debounce_update f false 10) <> DEBOUNCE_RISING_EDGE
  /\ fst (Arduino.poll a false 10) <> DEBOUNCE_RISING_EDGE.
Proof. vm_compute. repeat split; discriminate. Qed.

(** *** The accessors, called in the order that loses a falling edge *)

(** A release confirmed by [update], then [get_rising_edge] before
    [get_falling_edge]: neither returns true. *)
Lemma falling_edge_lost :
  let s := Arduino.updates (Arduino.construct 4 true 50 false)
             [(true, 10); (true, 100)] in
  Arduino.state_changed s = true
  /\ Arduino.prev_stable_state s = false
  /\ fst (Arduino.calls [Arduino.GetRisingEdge; Arduino.GetFallingEdge] s)
     = [false; false]
  /\ deliveries [Arduino.GetRisingEdge; Arduino.GetFallingEdge] s <> 1%nat.
Proof. vm_compute. repeat split; discriminate. Qed.

End Variants.

(** ** The theorems at concrete engines

    The engines of the two programs: pin 4, active-low, 50 ms to confirm
    a press; the four-state machine releases after 20 ms.  One tick is
    one millisecond unless said otherwise. *)

Ltac u32 := unfold in_u32, TICK_MODULUS; lia.

Lemma pending_edge_preserved_witness :
  Arduino.state_changed
    (Arduino.updates
       (Arduino.updates (Arduino.construct 4 true 50 false) [(true, 10); (true, 100)])
       [(false, 200); (false, 300)]) = true
  /\ Arduino.prev_stable_state
       (Arduino.updates
          (Arduino.updates (Arduino.construct 4 true 50 false) [(true, 10); (true, 100)])
          [(false, 200); (false, 300)]) = false.
Proof.
  destruct (ArduinoFacts.pending_edge_preserved
              (Arduino.updates (Arduino.construct 4 true 50 false)
                 [(true, 10); (true, 100)])
              [(false, 200); (false, 300)])
    as (H1 & H2 & _); [reflexivity|].
  split; [exact H1 | exact H2].
Defined.

Lemma accessors_after_transition_witness :
  fst (Arduino.calls
         [Arduino.GetFallingEdge; Arduino.GetRisingEdge; Arduino.GetFallingEdge]
         (Arduino.updates (Arduino.construct 4 true 50 false)
            [(true, 10); (true, 100)]))
  = [true; false; false]
  /\ le (deliveries
           [Arduino.GetFallingEdge; Arduino.GetRisingEdge; Arduino.GetFallingEdge]
           (Arduino.updates (Arduino.construct 4 true 50 false)
              [(true, 10); (true, 100)]))
        1%nat.
Proof.
  destruct (ArduinoFacts.accessors_after_transition
              (Arduino.updates (Arduino.construct 4 true 50 false)
                 [(true, 10); (true, 100)])
              [Arduino.GetFallingEdge; Arduino.GetRisingEdge; Arduino.GetFallingEdge])
    as (H1 & H2 & _); [reflexivity|].
  split; [exact H1 | exact H2].
Defined.

Lemma hysteresis_independence_witness :
  (count_edge FSM.DEBOUNCE_FALLING_EDGE
     (FSM.edges (FSM.debounce_init (fun ms => ms * 100 / 1000) 4 true 50 20 false 0)
        (hold true false 4294967295 [0; 1; 2])) = 1%nat
   /\ count_edge FSM.DEBOUNCE_RISING_EDGE
        (FSM.edges (FSM.debounce_init (fun ms => ms * 100 / 1000) 4 true 50 20 false 0)
           (hold true false 4294967295 [0; 1; 2])) = 0%nat)
  /\ FSM.edges (FSM.debounce_init (fun ms => ms * 100 / 1000) 4 true 50 20 false 0)
       (hold true false 4294967295 [0; 1] ++ hold true true 7 [0; 1])
     = repeat FSM.DEBOUNCE_NO_EDGE 4.
Proof.
  destruct (FSMFacts.hysteresis_independence (fun ms => ms * 100 / 1000)
              4 true false 0 [] 4294967295 7 [1] [0; 1])
    as [Ha Hb].
  - reflexivity.
  - vm_compute. split; [discriminate | reflexivity].
  - vm_compute. split; [discriminate | reflexivity].
  - split.
    + apply Ha. constructor; [u32 | constructor].
    + apply Hb. constructor; [vm_compute; split; discriminate | constructor].
Defined.

Lemma threshold_confirmation_witness :
  confirms_at_threshold
    (FSM.edges (FSM.debounce_init (fun ms => ms) 4 true 50 20 true 0))
    true 50 4294967280 [10; 49]
  /\ Arduino.edges (Arduino.construct 4 true 50 true)
       (hold true true 4294967280 [0; 10; 49; 50; 51])
     = [FSM.DEBOUNCE_NO_EDGE; FSM.DEBOUNCE_NO_EDGE; FSM.DEBOUNCE_NO_EDGE;
        FSM.DEBOUNCE_NO_EDGE; FSM.DEBOUNCE_RISING_EDGE].
Proof.
  apply (Variants.threshold_confirmation
           (FSM.debounce_init (fun ms => ms) 4 true 50 20 true 0)
           (Arduino.construct 4 true 50 true) 4294967280 51 [10; 49]);
    try reflexivity; simpl; try u32.
  repeat constructor; u32.
Defined.

Lemma variants_agree_up_to_threshold_witness :
  Arduino.edges (Arduino.construct 4 true 49 true)
    [(false, 100); (false, 150); (false, 160); (true, 170); (true, 300)]
  = FSM.edges (FSM.debounce_init (fun ms => ms) 4 true 50 50 true 0)
      [(false, 100); (false, 150); (false, 160); (true, 170); (true, 300)].
Proof.
  apply Variants.variants_agree_up_to_threshold.
  - unfold corresponds. simpl. repeat split.
  - simpl. u32.
  - simpl. u32.
  - simpl. u32.
  - reflexivity.
  - reflexivity.
Defined.

Lemma bounce_rejection_witness :
  FSM.edges (FSM.debounce_init (fun ms => ms) 4 true 50 20 true 0)
    [(false, 10); (false, 30); (true, 40); (false, 45)]
  = repeat FSM.DEBOUNCE_NO_EDGE 4
  /\ Arduino.edges (Arduino.construct 4 true 50 true)
       [(false, 10); (false, 30); (true, 40); (false, 45)]
     = repeat FSM.DEBOUNCE_NO_EDGE 4
  /\ FSM.edges (FSM.debounce_init (fun ms => ms) 4 true 50 20 true 0)
       (flipping true true 4294967290 10 7)
     = repeat FSM.DEBOUNCE_NO_EDGE 7
  /\ Arduino.edges (Arduino.construct 4 true 50 true)
       (flipping true true 4294967290 10 7)
     = repeat FSM.DEBOUNCE_NO_EDGE 7.
Proof.
  destruct (Variants.bounce_rejection
              (FSM.debounce_init (fun ms => ms) 4 true 50 20 true 0)
              (Arduino.construct 4 true 50 true) false
              [(false, 10); (false, 30); (true, 40); (false, 45)]
              true 4294967290 7)
    as (H1 & H2 & H3 & H4); try reflexivity.
  - simpl. lia.
  - split; [apply H1; vm_compute; repeat split|].
    split; [apply H2; vm_compute; repeat split|].
    split; [exact H3 | exact H4].
Defined.

Lemma wraparound_safe_witness :
  ticks_sub 54 4294967290 = 60
  /\ fst (FSM.debounce_update
            (FSM.mk_debounce 4 true 4294967290 50 20 FSM.DEBOUNCE_RISING) false 54)
     = FSM.DEBOUNCE_RISING_EDGE
  /\ Arduino.state_changed
       (Arduino.update
          (Arduino.mk_debounce 4 true true false 4294967290 50 false) false 54)
     = true.
Proof.
  destruct (Variants.wraparound_safe
              (FSM.mk_debounce 4 true 4294967290 50 20 FSM.DEBOUNCE_RISING)
              (Arduino.mk_debounce 4 true true false 4294967290 50 false)
              false 4294967290 4294967350)
    as (H1 & H2 & _ & H4); try reflexivity.
  - unfold TICK_MODULUS. lia.
  - split; [exact H1|]. split.
    + apply H2. repeat split. simpl. lia.
    + apply H4. split; [simpl; lia | discriminate].
Defined.

Lemma zero_window_confirmation_witness :
  fst (FSM.debounce_update (FSM.debounce_init (fun ms => ms) 4 true 0 0 true 0) false 10)
  = FSM.DEBOUNCE_NO_EDGE
  /\ fst (FSM.debounce_update
            (snd (FSM.debounce_update
                    (FSM.debounce_init (fun ms => ms) 4 true 0 0 true 0) false 10))
            false 10)
     = FSM.DEBOUNCE_RISING_EDGE
  /\ fst (Arduino.poll (Arduino.construct 4 true 0 true) false 10)
     = FSM.DEBOUNCE_NO_EDGE
  /\ fst (Arduino.poll
            (snd (Arduino.poll (Arduino.construct 4 true 0 true) false 10))
            false 10)
     = FSM.DEBOUNCE_NO_EDGE.
Proof.
  destruct (Variants.zero_window_confirmation
              (FSM.debounce_init (fun ms => ms) 4 true 0 0 true 0)
              (Arduino.construct 4 true 0 true) true 10 10)
    as (H1 & H2 & H3 & H4 & _); try reflexivity.
  split; [exact (f_equal fst H1)|].
  split; [exact H2|].
  split; [exact H3|].
  apply H4. reflexivity.
Defined.

(** ** Further properties of the debouncers and of the programs *)

Module Extras.

(** *** Polarity *)

Lemma fsm_update_flip (self : FSM.debounce_t) (level : bool) (now : Z) :
  FSM.debounce_update (fsm_flip_polarity self) (negb level) now
  = (fst (FSM.debounce_update self level now),
     fsm_flip_polarity (snd (FSM.debounce_update self level now))).
Proof.
  unfold FSM.debounce_update, fsm_flip_polarity, FSM.raw_read.
  destruct self as [p inv last press release st]; simpl.
  destruct st, inv, level; simpl; try reflexivity;
    match goal with
    | |- context [?a <=? ?b] => destruct (a <=? b); reflexivity
    end.
Qed.

(** X1. Wiring the switch the other way round and declaring the
    opposite polarity changes nothing: [debounce_init] builds the same
    engine up to its polarity flag, and over any observations the engine
    returns the same edges and ends in the same state. *)
Theorem fsm_polarity_irrelevant
    (pdMS_TO_TICKS : Z -> Z) (pin : Z) (inv : bool) (press_ms release_ms : Z)
    (level : bool) (now : Z) (self : FSM.debounce_t) (obs : list sample) :
  FSM.debounce_init pdMS_TO_TICKS pin (negb inv) press_ms release_ms (negb level) now
  = fsm_flip_polarity
      (FSM.debounce_init pdMS_TO_TICKS pin inv press_ms release_ms level now)
  /\ FSM.run (fsm_flip_polarity self) (flip_levels obs)
     = (FSM.edges self obs, fsm_flip_polarity (FSM.final self obs)).
Proof.
  split.
  - unfold FSM.debounce_init, fsm_flip_polarity, FSM.raw_read. simpl.
    now destruct inv, level.
  - unfold FSM.edges, FSM.final. revert self.
    induction obs as [|[level' now'] obs IH]; intros self; [reflexivity|].
    simpl flip_levels. rewrite !FSMFacts.run_cons. cbn [fst snd].
    rewrite fsm_update_flip. cbn [fst snd]. now rewrite IH.
Qed.

Lemma arduino_update_flip (self : Arduino.SoftwareDebounce) (level : bool) (t : Z) :
  Arduino.update (arduino_flip_polarity self) (negb level) t
  = arduino_flip_polarity (Arduino.update self level t).
Proof.
  destruct self as [p inv cur stable last delay changed].
  unfold Arduino.update, arduino_flip_polarity, Arduino.read_raw_state. simpl.
  replace (if negb inv then negb (negb level) else negb level)
    with (if inv then negb level else level) by now destruct inv, level.
  destruct (negb (Bool.eqb (if inv then negb level else level) cur)); simpl;
    destruct changed; simpl; try reflexivity;
    match goal with
    | |- context [?a <? ?b] => destruct (a <? b); simpl; try reflexivity
    end;
    match goal with
    | |- context [negb (Bool.eqb ?a ?b)] => destruct (negb (Bool.eqb a b)); reflexivity
    end.
Qed.

Lemma arduino_call_flip (a : Arduino.accessor) (self : Arduino.SoftwareDebounce) :
  Arduino.call a (arduino_flip_polarity self)
  = (fst (Arduino.call a self), arduino_flip_polarity (snd (Arduino.call a self))).
Proof.
  destruct self as [p inv cur stable last delay changed].
  destruct a, changed; reflexivity.
Qed.

(** X2. The same for the two-state debouncer: the constructor, any
    sequence of updates and any sequence of accessor calls give the same
    results, and the same state up to the polarity flag, when both the
    flag and the electrical levels are inverted. *)
Theorem arduino_polarity_irrelevant
    (pin : Z) (inv : bool) (delay : Z) (level : bool)
    (self : Arduino.SoftwareDebounce) (obs : list sample)
    (cs : list Arduino.accessor) :
  Arduino.construct pin (negb inv) delay (negb level)
  = arduino_flip_polarity (Arduino.construct pin inv delay level)
  /\ Arduino.updates (arduino_flip_polarity self) (flip_levels obs)
     = arduino_flip_polarity (Arduino.updates self obs)
  /\ Arduino.calls cs (arduino_flip_polarity self)
     = (fst (Arduino.calls cs self),
        arduino_flip_polarity (snd (Arduino.calls cs self))).
Proof.
  split; [|split].
  - unfold Arduino.construct, arduino_flip_polarity. simpl.
    now destruct inv, level.
  - unfold Arduino.updates. revert self.
    induction obs as [|[level' t] obs IH]; intros self; [reflexivity|].
    simpl. rewrite arduino_update_flip. apply IH.
  - revert self. induction cs as [|a cs IH]; intros self; [reflexivity|].
    simpl. rewrite arduino_call_flip.
    destruct (Arduino.call a self) as [b self1]. cbn [fst snd].
    rewrite IH. now destruct (Arduino.calls cs self1).
Qed.


(** *** Steady levels *)

(** The same electrical level observed at the instants [ts]. *)
Lemma fsm_steady (self : FSM.debounce_t) (level : bool) (ts : list Z) :
  FSM.state self = confirmed_state (FSM.raw_read level (FSM.inverted self)) ->
  FSM.run self (map (fun t => (level, t)) ts)
  = (repeat FSM.DEBOUNCE_NO_EDGE (length ts), self).
Proof.
  intros Hst. induction ts as [|t ts IH]; [reflexivity|].
  simpl map. rewrite FSMFacts.run_cons.
  assert (Hstep : FSM.debounce_update self level t = (FSM.DEBOUNCE_NO_EDGE, self)).
  { unfold FSM.debounce_update. rewrite Hst.
    now destruct (FSM.raw_read level (FSM.inverted self)). }
  rewrite Hstep. cbn [fst snd]. now rewrite IH.
Qed.

(** X3. [debounce_init] seeds the state from the level it reads, so as
    long as the pin keeps that level no update returns an edge, whatever
    the timestamps and the windows, and the engine stays exactly as
    initialised. *)
Theorem init_no_spurious_edge
    (pdMS_TO_TICKS : Z -> Z) (pin : Z) (inv : bool) (press_ms release_ms : Z)
    (level : bool) (now : Z) (ts : list Z) :
  FSM.run (FSM.debounce_init pdMS_TO_TICKS pin inv press_ms release_ms level now)
    (map (fun t => (level, t)) ts)
  = (repeat FSM.DEBOUNCE_NO_EDGE (length ts),
     FSM.debounce_init pdMS_TO_TICKS pin inv press_ms release_ms level now).
Proof.
  apply fsm_steady. simpl.
  now destruct (FSM.raw_read level inv).
Qed.

(** X4. After an update has returned an edge, the level that produced it
    can be observed any number of times, at any instants: every update
    returns [DEBOUNCE_NO_EDGE] and leaves the engine as it is. *)
Theorem steady_after_edge
    (self : FSM.debounce_t) (level : bool) (now : Z) (ts : list Z) :
  fst (FSM.debounce_update self level now) <> FSM.DEBOUNCE_NO_EDGE ->
  FSM.run (snd (FSM.debounce_update self level now)) (map (fun t => (level, t)) ts)
  = (repeat FSM.DEBOUNCE_NO_EDGE (length ts), snd (FSM.debounce_update self level now)).
Proof.
  intros He. apply fsm_steady. revert He.
  unfold FSM.debounce_update, FSM.raw_read.
  destruct self as [p inv last press release st]; simpl.
  destruct st, inv, level; simpl; try congruence;
    match goal with
    | |- context [?a <=? ?b] => destruct (a <=? b); simpl; congruence
    end.
Qed.

Lemma arduino_steady (self : Arduino.SoftwareDebounce) (level : bool) (t : Z) :
  Arduino.read_raw_state self level = Arduino.cur_state self ->
  Arduino.cur_state self = Arduino.prev_stable_state self ->
  Arduino.update self level t = self.
Proof.
  destruct self as [p inv cur stable last delay changed].
  unfold Arduino.update, Arduino.read_raw_state. simpl. intros -> ->.
  rewrite !eqb_reflx. simpl.
  now destruct (negb changed && (delay <? ticks_sub t last)).
Qed.

(** X5. The constructor seeds both the raw and the confirmed state from
    the level it reads: while the pin keeps that level, updates at any
    instants leave the debouncer exactly as constructed, whatever the
    delay, and no accessor call returns true. *)
Theorem construct_no_spurious_edge
    (pin : Z) (inv : bool) (delay : Z) (level : bool) (ts : list Z)
    (cs : list Arduino.accessor) :
  Arduino.updates (Arduino.construct pin inv delay level)
    (map (fun t => (level, t)) ts)
  = Arduino.construct pin inv delay level
  /\ Arduino.calls cs
       (Arduino.updates (Arduino.construct pin inv delay level)
          (map (fun t => (level, t)) ts))
     = (repeat false (length cs), Arduino.construct pin inv delay level).
Proof.
  assert (H : Arduino.updates (Arduino.construct pin inv delay level)
                (map (fun t => (level, t)) ts)
              = Arduino.construct pin inv delay level).
  { unfold Arduino.updates. induction ts as [|t ts IH]; [reflexivity|].
    simpl. rewrite arduino_steady; [exact IH | reflexivity | reflexivity]. }
  split; [exact H|]. rewrite H. now apply ArduinoFacts.calls_idle.
Qed.

(** *** The course of a confirmation *)

Lemma full_confirmation_run
    (self : FSM.debounce_t) (r : bool) (t0 d : Z) (pre post : list Z) :
  FSM.state self = confirmed_state (negb r) ->
  Forall (fun d' => in_u32 d' /\ d' < fsm_window self r) pre ->
  in_u32 d ->
  fsm_window self r <= d ->
  FSM.run self (hold (FSM.inverted self) r t0 (0 :: pre ++ d :: post))
  = (FSM.DEBOUNCE_NO_EDGE
       :: repeat FSM.DEBOUNCE_NO_EDGE (length pre)
       ++ edge_of r :: repeat FSM.DEBOUNCE_NO_EDGE (length post),
     FSM.set_state
       (FSM.set_state_and_ticks self (tentative_state r) (wrap32 t0))
       (confirmed_state r)).
Proof.
  intros Hst Hpre Hd Hle.
  replace (0 :: pre ++ d :: post) with ((0 :: pre ++ [d]) ++ post)
    by (simpl; now rewrite <- app_assoc).
  unfold hold. rewrite map_app, FSMFacts.run_app.
  change (map (fun d0 => (level_of (FSM.inverted self) r, wrap32 (t0 + d0)))
            (0 :: pre ++ [d]))
    with (hold (FSM.inverted self) r t0 (0 :: pre ++ [d])).
  rewrite (FSMFacts.confirmation_run self r t0 d pre Hst Hpre Hd Hle).
  cbn [fst snd].
  set (self2 := FSM.set_state _ (confirmed_state r)).
  change (map (fun d0 => (level_of (FSM.inverted self) r, wrap32 (t0 + d0))) post)
    with (hold (FSM.inverted self2) r t0 post).
  rewrite (FSMFacts.hold_confirmed self2 r t0 post eq_refl). cbn [fst snd].
  f_equal. simpl. f_equal. now rewrite <- app_assoc.
Qed.

(** X6. A level [r] first observed at [t0] in the opposite confirmed
    state, observed again at offsets short of its window, then at an
    offset [d] that reaches the window, then at any further offsets: the
    engine returns the edge of [r] exactly once, at [d], nothing before
    and nothing after, and ends in the confirmed state of [r] with the
    timer left at [t0]. *)
Theorem confirmation_trace
    (self : FSM.debounce_t) (r : bool) (t0 d : Z) (pre post : list Z) :
  FSM.state self = confirmed_state (negb r) ->
  Forall (fun d' => in_u32 d' /\ d' < fsm_window self r) pre ->
  in_u32 d ->
  fsm_window self r <= d ->
  FSM.run self (hold (FSM.inverted self) r t0 (0 :: pre ++ d :: post))
  = (FSM.DEBOUNCE_NO_EDGE
       :: repeat FSM.DEBOUNCE_NO_EDGE (length pre)
       ++ edge_of r :: repeat FSM.DEBOUNCE_NO_EDGE (length post),
     FSM.set_state
       (FSM.set_state_and_ticks self (tentative_state r) (wrap32 t0))
       (confirmed_state r)).
Proof. apply full_confirmation_run. Qed.

(** *** Edges never come back to back *)

Lemma edge_lands_confirmed (self : FSM.debounce_t) (level : bool) (now : Z) :
  fst (FSM.debounce_update self level now) = FSM.DEBOUNCE_NO_EDGE
  \/ fsm_confirmed (snd (FSM.debounce_update self level now)) <> None.
Proof.
  unfold FSM.debounce_update, fsm_confirmed, FSM.raw_read.
  destruct self as [p inv last press release st]; simpl.
  destruct st, inv, level; simpl; auto;
    match goal with
    | |- context [?a <=? ?b] => destruct (a <=? b); simpl; auto
    end;
    right; discriminate.
Qed.

Lemma confirmed_is_silent (self : FSM.debounce_t) (level : bool) (now : Z) :
  fsm_confirmed self <> None ->
  fst (FSM.debounce_update self level now) = FSM.DEBOUNCE_NO_EDGE.
Proof.
  unfold FSM.debounce_update, fsm_confirmed, FSM.raw_read.
  destruct self as [p inv last press release st]; simpl.
  destruct st, inv, level; simpl; congruence.
Qed.

(** X7. From any state and over any observations, an update that
    returns an edge is never followed by an update that returns one:
    between two edges there is at least one [DEBOUNCE_NO_EDGE]. *)
Theorem edges_never_adjacent (self : FSM.debounce_t) (obs : list sample) :
  no_adjacent_edges (FSM.edges self obs).
Proof.
  unfold FSM.edges. revert self.
  induction obs as [|[level now] obs IH]; intros self; [exact I|].
  rewrite FSMFacts.run_cons. cbn [fst].
  specialize (IH (snd (FSM.debounce_update self level now))).
  destruct obs as [|[level' now'] obs]; [exact I|].
  rewrite FSMFacts.run_cons in IH |- *. cbn [fst] in IH |- *.
  split; [|exact IH].
  destruct (edge_lands_confirmed self level now) as [He | Hc]; [now left|].
  right. now apply confirmed_is_silent.
Qed.

(** *** What one update of the two-state debouncer does *)

(** X8. With a delay that is not negative, [update] always records the
    sample it read and restarts the timer exactly when the sample
    differs from the previous one.  It confirms a change (sets
    [state_changed] and moves [prev_stable_state] to the sample) exactly
    when no edge is pending, the sample repeats the previous one, differs
    from the confirmed state, and more than the delay has elapsed since
    the timer was restarted; in every other case the flag and the
    confirmed state are left as they were. *)
Theorem update_characterised
    (self : Arduino.SoftwareDebounce) (level : bool) (cur_time : Z) :
  0 <= Arduino.delay_time self ->
  let raw := Arduino.read_raw_state self level in
  let self' := Arduino.update self level cur_time in
  Arduino.cur_state self' = raw
  /\ Arduino.last_change_time self'
     = (if Bool.eqb raw (Arduino.cur_state self)
        then Arduino.last_change_time self else cur_time)
  /\ ((Arduino.state_changed self = false
       /\ raw = Arduino.cur_state self
       /\ raw <> Arduino.prev_stable_state self
       /\ Arduino.delay_time self
          < ticks_sub cur_time (Arduino.last_change_time self)) ->
      Arduino.state_changed self' = true
      /\ Arduino.prev_stable_state self' = raw)
  /\ (~ (Arduino.state_changed self = false
         /\ raw = Arduino.cur_state self
         /\ raw <> Arduino.prev_stable_state self
         /\ Arduino.delay_time self
            < ticks_sub cur_time (Arduino.last_change_time self)) ->
      Arduino.state_changed self' = Arduino.state_changed self
      /\ Arduino.prev_stable_state self' = Arduino.prev_stable_state self).
Proof.
  destruct self as [p inv cur stable last delay changed].
  unfold Arduino.update, Arduino.read_raw_state. simpl. intros Hdelay.
  set (raw := if inv then negb level else level).
  assert (Hraw : forall b, Bool.eqb raw b = false -> raw <> b)
    by (intros b Hb; now apply eqb_false_iff).
  destruct (Bool.eqb raw cur) eqn:Eraw;
    [apply eqb_prop in Eraw; subst cur | apply Hraw in Eraw; rewrite ticks_sub_diag];
    destruct changed; simpl;
    repeat match goal with
           | |- context [?x <? ?y] => destruct (Z.ltb_spec x y); simpl
           end;
    try (destruct (Bool.eqb raw stable) eqn:Es;
         [apply eqb_prop in Es | apply Hraw in Es]; simpl);
    (split; [reflexivity|]); (split; [reflexivity|]);
    (split; intros Hc;
     [ destruct Hc as (H1 & H2 & H3 & H4);
       first [discriminate | lia | congruence | split; reflexivity]
     | first [split; reflexivity | exfalso; apply Hc; repeat split; auto; lia] ]).
Qed.

(** *** Configuration *)

Lemma fsm_update_pin (self : FSM.debounce_t) (level : bool) (now : Z) :
  FSM.pin (snd (FSM.debounce_update self level now)) = FSM.pin self.
Proof.
  unfold FSM.debounce_update, FSM.raw_read.
  destruct self as [p inv last press release st]; simpl.
  destruct st, inv, level; simpl; try reflexivity;
    match goal with
    | |- context [?a <=? ?b] => destruct (a <=? b); reflexivity
    end.
Qed.

Lemma arduino_update_config (self : Arduino.SoftwareDebounce) (level : bool) (t : Z) :
  Arduino.pin (Arduino.update self level t) = Arduino.pin self
  /\ Arduino.inverted (Arduino.update self level t) = Arduino.inverted self
  /\ Arduino.delay_time (Arduino.update self level t) = Arduino.delay_time self.
Proof.
  destruct self as [p inv cur stable last delay changed].
  unfold Arduino.update, Arduino.read_raw_state. simpl.
  destruct (negb (Bool.eqb (if inv then negb level else level) cur)); simpl;
    destruct (negb changed); simpl; auto;
    match goal with
    | |- context [?a <? ?b] => destruct (a <? b); simpl; auto
    end;
    match goal with
    | |- context [negb (Bool.eqb ?a ?b)] => destruct (negb (Bool.eqb a b)); auto
    end.
Qed.

Lemma arduino_call_config (a : Arduino.accessor) (self : Arduino.SoftwareDebounce) :
  Arduino.pin (snd (Arduino.call a self)) = Arduino.pin self
  /\ Arduino.inverted (snd (Arduino.call a self)) = Arduino.inverted self
  /\ Arduino.delay_time (snd (Arduino.call a self)) = Arduino.delay_time self
  /\ Arduino.cur_state (snd (Arduino.call a self)) = Arduino.cur_state self
  /\ Arduino.last_change_time (snd (Arduino.call a self))
     = Arduino.last_change_time self.
Proof.
  destruct self as [p inv cur stable last delay changed].
  destruct a, changed; simpl; auto.
Qed.

(** X9. Pin, polarity and windows are fixed at construction: no sequence
    of updates of the four-state machine changes [pin], [inverted],
    [press_delay_ticks] or [release_delay_ticks]; no sequence of updates
    and no sequence of accessor calls of the two-state debouncer changes
    [pin], [inverted] or [delay_time], and the accessors leave the raw
    state and its timer alone as well. *)
Theorem configuration_is_immutable
    (f : FSM.debounce_t) (a : Arduino.SoftwareDebounce)
    (obs : list sample) (cs : list Arduino.accessor) :
  (FSM.pin (FSM.final f obs) = FSM.pin f
   /\ FSM.inverted (FSM.final f obs) = FSM.inverted f
   /\ FSM.press_delay_ticks (FSM.final f obs) = FSM.press_delay_ticks f
   /\ FSM.release_delay_ticks (FSM.final f obs) = FSM.release_delay_ticks f)
  /\ (Arduino.pin (Arduino.updates a obs) = Arduino.pin a
      /\ Arduino.inverted (Arduino.updates a obs) = Arduino.inverted a
      /\ Arduino.delay_time (Arduino.updates a obs) = Arduino.delay_time a)
  /\ (Arduino.pin (snd (Arduino.calls cs a)) = Arduino.pin a
      /\ Arduino.inverted (snd (Arduino.calls cs a)) = Arduino.inverted a
      /\ Arduino.delay_time (snd (Arduino.calls cs a)) = Arduino.delay_time a
      /\ Arduino.cur_state (snd (Arduino.calls cs a)) = Arduino.cur_state a
      /\ Arduino.last_change_time (snd (Arduino.calls cs a))
         = Arduino.last_change_time a).
Proof.
  split; [|split].
  - unfold FSM.final.
    destruct (FSMFacts.run_config obs f) as (Hp & Hr & Hi).
    repeat split; try assumption.
    revert f Hp Hr Hi. induction obs as [|[level now] obs IH]; intros f _ _ _;
      [reflexivity|].
    rewrite FSMFacts.run_cons. cbn [snd].
    destruct (FSMFacts.run_config obs (snd (FSM.debounce_update f level now)))
      as (Hp & Hr & Hi).
    rewrite (IH _ Hp Hr Hi). apply fsm_update_pin.
  - unfold Arduino.updates. revert a.
    induction obs as [|[level t] obs IH]; intros a; [auto|].
    simpl. destruct (IH (Arduino.update a level t)) as (-> & -> & ->).
    apply arduino_update_config.
  - revert a. induction cs as [|c cs IH]; intros a; [simpl; auto 6|].
    simpl. destruct (arduino_call_config c a) as (H1 & H2 & H3 & H4 & H5).
    destruct (Arduino.call c a) as [b a1]. simpl in H1, H2, H3, H4, H5.
    specialize (IH a1). destruct (Arduino.calls cs a1) as [bs a2]. simpl in *.
    destruct IH as (-> & -> & -> & -> & ->). auto 6.
Qed.

(** *** The programs *)

Lemma toggles_app (led : bool) (xs ys : list FSM.debounce_edge_t) :
  toggles led (xs ++ ys) = toggles led xs ++ toggles (led_after led xs) ys.
Proof.
  revert led. induction xs as [|e xs IH]; intros led; [reflexivity|].
  destruct e; simpl; rewrite IH; reflexivity.
Qed.

Lemma led_after_app (led : bool) (xs ys : list FSM.debounce_edge_t) :
  led_after led (xs ++ ys) = led_after (led_after led xs) ys.
Proof.
  revert led. induction xs as [|e xs IH]; intros led; [reflexivity|].
  destruct e; simpl; apply IH.
Qed.

Lemma toggles_none (led : bool) (n : nat) :
  toggles led (repeat FSM.DEBOUNCE_NO_EDGE n) = []
  /\ led_after led (repeat FSM.DEBOUNCE_NO_EDGE n) = led.
Proof. induction n as [|n [IH1 IH2]]; simpl; auto. Qed.

Lemma led_after_parity (es : list FSM.debounce_edge_t) (led : bool) :
  led_after led es = xorb led (Nat.odd (count_edge FSM.DEBOUNCE_RISING_EDGE es)).
Proof.
  revert led. induction es as [|e es IH]; intros led.
  - simpl. now destruct led.
  - rewrite FSMFacts.count_edge_cons. destruct e; simpl; rewrite IH; try reflexivity.
    rewrite Nat.odd_succ, <- Nat.negb_odd. now destruct led, (Nat.odd _).
Qed.

Lemma task_is_toggles (obs : list sample) (sys : EspApp.system) :
  EspApp.debounce_task sys obs
  = (toggles (EspApp.led_state sys) (FSM.edges (EspApp.debouncer sys) obs),
     EspApp.mk_system
       (led_after (EspApp.led_state sys) (FSM.edges (EspApp.debouncer sys) obs))
       (FSM.final (EspApp.debouncer sys) obs)).
Proof.
  unfold FSM.edges, FSM.final. revert sys.
  induction obs as [|[level now] obs IH]; intros [led d]; [reflexivity|].
  simpl EspApp.debounce_task. unfold EspApp.debounce_task_step.
  cbn [EspApp.led_state EspApp.debouncer]. rewrite FSMFacts.run_cons.
  destruct (FSM.debounce_update d level now) as [e d1]. cbn [fst snd].
  destruct e; rewrite IH; reflexivity.
Qed.

(** X10. [debounce_task] turns the edges of the debouncer into LED
    events: over any observations it writes the LED, toggled, and logs
    its new level once for every rising edge [debounce_update] returns,
    in order, and does nothing on falling edges.  The LED ends up
    toggled when the number of rising edges is odd, and the debouncer
    is left as the updates alone leave it. *)
Theorem task_toggles_on_rising_edges (sys : EspApp.system) (obs : list sample) :
  fst (EspApp.debounce_task sys obs)
  = toggles (EspApp.led_state sys) (FSM.edges (EspApp.debouncer sys) obs)
  /\ EspApp.led_state (snd (EspApp.debounce_task sys obs))
     = xorb (EspApp.led_state sys)
         (Nat.odd (count_edge FSM.DEBOUNCE_RISING_EDGE
                     (FSM.edges (EspApp.debouncer sys) obs)))
  /\ EspApp.debouncer (snd (EspApp.debounce_task sys obs))
     = FSM.final (EspApp.debouncer sys) obs.
Proof.
  rewrite task_is_toggles. cbn [fst snd EspApp.led_state EspApp.debouncer].
  repeat split. apply led_after_parity.
Qed.

Lemma loop_is_poll (sk : ArduinoApp.sketch) (level : bool) (t : Z) :
  ArduinoApp.loop sk level t
  = (toggles (ArduinoApp.led_state sk)
       [fst (Arduino.poll (ArduinoApp.debouncer sk) level t)],
     ArduinoApp.mk_sketch
       (snd (Arduino.poll (ArduinoApp.debouncer sk) level t))
       (led_after (ArduinoApp.led_state sk)
          [fst (Arduino.poll (ArduinoApp.debouncer sk) level t)])).
Proof.
  destruct sk as [d led]. unfold ArduinoApp.loop, Arduino.poll.
  cbn [ArduinoApp.led_state ArduinoApp.debouncer].
  generalize (Arduino.update d level t). intros d1.
  destruct d1 as [p inv cur stable last delay changed].
  destruct changed, stable; reflexivity.
Qed.

Lemma loops_is_toggles (obs : list sample) (sk : ArduinoApp.sketch) :
  ArduinoApp.loops sk obs
  = (toggles (ArduinoApp.led_state sk)
       (Arduino.edges (ArduinoApp.debouncer sk) obs),
     ArduinoApp.mk_sketch
       (snd (Arduino.run (ArduinoApp.debouncer sk) obs))
       (led_after (ArduinoApp.led_state sk)
          (Arduino.edges (ArduinoApp.debouncer sk) obs))).
Proof.
  unfold Arduino.edges. revert sk.
  induction obs as [|[level t] obs IH]; intros sk; [now destruct sk|].
  simpl ArduinoApp.loops. rewrite loop_is_poll, IH.
  cbn [ArduinoApp.led_state ArduinoApp.debouncer]. simpl Arduino.run.
  destruct (Arduino.poll (ArduinoApp.debouncer sk) level t) as [e d1].
  cbn [fst snd]. destruct (Arduino.run d1 obs) as [es d2]. cbn [fst snd].
  destruct e; reflexivity.
Qed.

Lemma get_rising_edge_clears (self : Arduino.SoftwareDebounce) :
  Arduino.state_changed (snd (Arduino.get_rising_edge self)) = false.
Proof.
  destruct self as [p inv cur stable last delay changed].
  now destruct changed.
Qed.

(** X11. [loop] never leaves an edge pending: after every iteration
    [state_changed] is clear, because [get_rising_edge] consumes the flag
    whether the confirmed change was a press or a release.  Over any
    observations the sketch writes the LED, toggled, and prints its new
    level once for every confirmed press, and nothing for a release. *)
Theorem loop_rearms_and_toggles
    (sk : ArduinoApp.sketch) (level : bool) (t : Z) (obs : list sample) :
  Arduino.state_changed (ArduinoApp.debouncer (snd (ArduinoApp.loop sk level t)))
  = false
  /\ fst (ArduinoApp.loops sk obs)
     = toggles (ArduinoApp.led_state sk)
         (Arduino.edges (ArduinoApp.debouncer sk) obs)
  /\ ArduinoApp.led_state (snd (ArduinoApp.loops sk obs))
     = xorb (ArduinoApp.led_state sk)
         (Nat.odd (count_edge FSM.DEBOUNCE_RISING_EDGE
                     (Arduino.edges (ArduinoApp.debouncer sk) obs))).
Proof.
  split; [|split].
  - unfold ArduinoApp.loop.
    pose proof (get_rising_edge_clears
                  (Arduino.update (ArduinoApp.debouncer sk) level t)) as H.
    destruct (Arduino.get_rising_edge
                (Arduino.update (ArduinoApp.debouncer sk) level t)) as [b d2].
    now destruct b.
  - now rewrite loops_is_toggles.
  - rewrite loops_is_toggles. cbn [snd ArduinoApp.led_state].
    apply led_after_parity.
Qed.

(** X12. The two programs drive the LED alike up to one tick of
    threshold: when the sketch's debouncer has delay [w], the task's
    engine has both windows [w + 1], all three values of the 32-bit
    fields that hold them (so [w + 1] is below [2 ^ 32]), their states
    correspond and the LEDs agree, then over any observations both
    programs emit the same LED events and leave the LED at the same
    level. *)
Theorem programs_drive_led_alike
    (sk : ArduinoApp.sketch) (sys : EspApp.system) (obs : list sample) :
  corresponds (ArduinoApp.debouncer sk) (EspApp.debouncer sys) ->
  in_u32 (Arduino.delay_time (ArduinoApp.debouncer sk)) ->
  in_u32 (FSM.press_delay_ticks (EspApp.debouncer sys)) ->
  in_u32 (FSM.release_delay_ticks (EspApp.debouncer sys)) ->
  FSM.press_delay_ticks (EspApp.debouncer sys)
  = Arduino.delay_time (ArduinoApp.debouncer sk) + 1 ->
  FSM.release_delay_ticks (EspApp.debouncer sys)
  = Arduino.delay_time (ArduinoApp.debouncer sk) + 1 ->
  ArduinoApp.led_state sk = EspApp.led_state sys ->
  fst (ArduinoApp.loops sk obs) = fst (EspApp.debounce_task sys obs)
  /\ ArduinoApp.led_state (snd (ArduinoApp.loops sk obs))
     = EspApp.led_state (snd (EspApp.debounce_task sys obs)).
Proof.
  intros Hc [Hd _] _ _ Hp Hr Hled.
  rewrite loops_is_toggles, task_is_toggles.
  cbn [fst snd ArduinoApp.led_state EspApp.led_state].
  rewrite (ArduinoFacts.run_simulates obs _ _ Hc Hd Hp Hr), Hled.
  split; reflexivity.
Qed.

(** X13. One press, one toggle: with the engine of the task in the
    confirmed state opposite to [r], the level [r] first observed at
    [t0], again at offsets short of its window, at an offset [d] that
    reaches it and at any further offsets makes the task write and log
    the toggled LED exactly once when [r] is a press, however long the
    button is held afterwards, and emit nothing when [r] is a release. *)
Theorem press_toggles_once
    (sys : EspApp.system) (r : bool) (t0 d : Z) (pre post : list Z) :
  FSM.state (EspApp.debouncer sys) = confirmed_state (negb r) ->
  Forall (fun d' => in_u32 d' /\ d' < fsm_window (EspApp.debouncer sys) r) pre ->
  in_u32 d ->
  fsm_window (EspApp.debouncer sys) r <= d ->
  fst (EspApp.debounce_task sys
         (hold (FSM.inverted (EspApp.debouncer sys)) r t0 (0 :: pre ++ d :: post)))
  = (if r
     then [LedWrite (negb (EspApp.led_state sys));
           LedMessage (negb (EspApp.led_state sys))]
     else [])
  /\ EspApp.led_state
       (snd (EspApp.debounce_task sys
               (hold (FSM.inverted (EspApp.debouncer sys)) r t0
                  (0 :: pre ++ d :: post))))
     = (if r then negb (EspApp.led_state sys) else EspApp.led_state sys).
Proof.
  intros Hst Hpre Hd Hle. rewrite task_is_toggles.
  cbn [fst snd EspApp.led_state]. unfold FSM.edges.
  rewrite (full_confirmation_run _ r t0 d pre post Hst Hpre Hd Hle). cbn [fst].
  change (FSM.DEBOUNCE_NO_EDGE
            :: repeat FSM.DEBOUNCE_NO_EDGE (length pre)
            ++ edge_of r :: repeat FSM.DEBOUNCE_NO_EDGE (length post))
    with (repeat FSM.DEBOUNCE_NO_EDGE (S (length pre))
            ++ edge_of r :: repeat FSM.DEBOUNCE_NO_EDGE (length post)).
  rewrite toggles_app, led_after_app.
  destruct (toggles_none (EspApp.led_state sys) (S (length pre))) as [-> ->].
  destruct r; simpl;
    match goal with
    | |- context [toggles ?l (repeat _ ?n)] =>
        destruct (toggles_none l n) as [-> ->]
    end; split; reflexivity.
Qed.


(** X14. The course of a confirmation in the two-state debouncer, its
    edges read by the matching accessor after each update: at rest on
    the level opposite to [r], the level [r] first observed at [t0],
    again at offsets up to the delay, at an offset [d] beyond the delay
    and at any further offsets is reported exactly once, at [d], as a
    rising edge for an active [r] and a falling edge for an inactive
    one. *)
Theorem arduino_confirmation_trace
    (a : Arduino.SoftwareDebounce) (r : bool) (t0 d : Z) (pre post : list Z) :
  Arduino.state_changed a = false ->
  Arduino.cur_state a = negb r ->
  Arduino.prev_stable_state a = negb r ->
  0 <= Arduino.delay_time a ->
  Forall (fun d' => in_u32 d' /\ d' <= Arduino.delay_time a) pre ->
  in_u32 d ->
  Arduino.delay_time a < d ->
  Arduino.edges a (hold (Arduino.inverted a) r t0 (0 :: pre ++ d :: post))
  = FSM.DEBOUNCE_NO_EDGE
      :: repeat FSM.DEBOUNCE_NO_EDGE (length pre)
      ++ edge_of r :: repeat FSM.DEBOUNCE_NO_EDGE (length post).
Proof.
  intros Hch Hcur Hstable Hdelay Hpre Hd Hlt.
  rewrite Variants.at_rest_simulated by congruence.
  rewrite Hstable. unfold FSM.edges.
  set (f' := FSM.mk_debounce _ _ _ _ _ _).
  change (Arduino.inverted a) with (FSM.inverted f').
  rewrite (full_confirmation_run f' r t0 d pre post); try reflexivity; try assumption.
  - eapply Forall_impl; [|exact Hpre]. intros x [Hx Hx']. split; [exact Hx|].
    unfold fsm_window. simpl. destruct r; lia.
  - unfold fsm_window. simpl. destruct r; lia.
Qed.

End Extras.

(** ** The further properties at concrete engines *)

Lemma steady_after_edge_witness :
  FSM.run
    (snd (FSM.debounce_update
            (FSM.mk_debounce 4 true 100 50 20 FSM.DEBOUNCE_RISING) false 160))
    (map (fun t => (false, t)) [170; 4000000000; 5])
  = (repeat FSM.DEBOUNCE_NO_EDGE 3,
     snd (FSM.debounce_update
            (FSM.mk_debounce 4 true 100 50 20 FSM.DEBOUNCE_RISING) false 160)).
Proof.
  apply (Extras.steady_after_edge
           (FSM.mk_debounce 4 true 100 50 20 FSM.DEBOUNCE_RISING) false 160
           [170; 4000000000; 5]).
  vm_compute. discriminate.
Defined.

Lemma confirmation_trace_witness :
  FSM.run (snd (EspApp.app_main (fun ms => ms) false 0)).(EspApp.debouncer)
    (hold true false 4294967290 [0; 5; 19; 20; 21; 400])
  = ([FSM.DEBOUNCE_NO_EDGE; FSM.DEBOUNCE_NO_EDGE; FSM.DEBOUNCE_NO_EDGE;
      FSM.DEBOUNCE_FALLING_EDGE; FSM.DEBOUNCE_NO_EDGE; FSM.DEBOUNCE_NO_EDGE],
     FSM.mk_debounce 4 true 4294967290 50 20 FSM.DEBOUNCE_LOW).
Proof.
  apply (Extras.confirmation_trace
           (snd (EspApp.app_main (fun ms => ms) false 0)).(EspApp.debouncer)
           false 4294967290 20 [5; 19] [21; 400]).
  - reflexivity.
  - repeat constructor; u32.
  - u32.
  - simpl. lia.
Defined.

Lemma update_characterised_witness :
  Arduino.state_changed
    (Arduino.update (Arduino.mk_debounce 4 true true false 100 50 false) false 151)
  = true
  /\ Arduino.prev_stable_state
       (Arduino.update (Arduino.mk_debounce 4 true true false 100 50 false) false 151)
     = true.
Proof.
  destruct (Extras.update_characterised
              (Arduino.mk_debounce 4 true true false 100 50 false) false 151)
    as (_ & _ & H & _).
  - simpl. lia.
  - apply H. repeat split; discriminate.
Defined.

Lemma programs_drive_led_alike_witness :
  fst (ArduinoApp.loops
         (ArduinoApp.mk_sketch (Arduino.construct 4 true 49 true) false)
         [(false, 100); (false, 150); (true, 160); (true, 200); (false, 210);
          (false, 300)])
  = fst (EspApp.debounce_task
           (EspApp.mk_system false
              (FSM.debounce_init (fun ms => ms) 4 true 50 50 true 0))
           [(false, 100); (false, 150); (true, 160); (true, 200); (false, 210);
            (false, 300)])
  /\ ArduinoApp.led_state
       (snd (ArduinoApp.loops
               (ArduinoApp.mk_sketch (Arduino.construct 4 true 49 true) false)
               [(false, 100); (false, 150); (true, 160); (true, 200); (false, 210);
                (false, 300)]))
     = EspApp.led_state
         (snd (EspApp.debounce_task
                 (EspApp.mk_system false
                    (FSM.debounce_init (fun ms => ms) 4 true 50 50 true 0))
                 [(false, 100); (false, 150); (true, 160); (true, 200); (false, 210);
                  (false, 300)])).
Proof.
  apply (Extras.programs_drive_led_alike
           (ArduinoApp.mk_sketch (Arduino.construct 4 true 49 true) false)
           (EspApp.mk_system false
              (FSM.debounce_init (fun ms => ms) 4 true 50 50 true 0))).
  - unfold corresponds. simpl. repeat split.
  - simpl. u32.
  - simpl. u32.
  - simpl. u32.
  - reflexivity.
  - reflexivity.
  - reflexivity.
Defined.

Lemma press_toggles_once_witness :
  fst (EspApp.debounce_task (snd (EspApp.app_main (fun ms => ms) true 0))
         (hold true true 4294967290 [0; 10; 20; 30; 40; 50; 60; 70]))
  = [LedWrite true; LedMessage true]
  /\ EspApp.led_state
       (snd (EspApp.debounce_task (snd (EspApp.app_main (fun ms => ms) true 0))
               (hold true true 4294967290 [0; 10; 20; 30; 40; 50; 60; 70])))
     = true.
Proof.
  apply (Extras.press_toggles_once
           (snd (EspApp.app_main (fun ms => ms) true 0))
           true 4294967290 50 [10; 20; 30; 40] [60; 70]).
  - reflexivity.
  - repeat constructor; u32.
  - u32.
  - simpl. lia.
Defined.

Lemma arduino_confirmation_trace_witness :
  Arduino.edges (ArduinoApp.debouncer (ArduinoApp.globals false))
    (hold true false 4294967290 [0; 50; 51; 52])
  = [FSM.DEBOUNCE_NO_EDGE; FSM.DEBOUNCE_NO_EDGE; FSM.DEBOUNCE_FALLING_EDGE;
     FSM.DEBOUNCE_NO_EDGE].
Proof.
  apply (Extras.arduino_confirmation_trace
           (ArduinoApp.debouncer (ArduinoApp.globals false))
           false 4294967290 51 [50] [52]).
  - reflexivity.
  - reflexivity.
  - reflexivity.
  - simpl. lia.
  - repeat constructor; simpl; u32.
  - u32.
  - simpl. lia.
Defined.
